(** * click_params.base: conversion and validation of command line tokens

    A shallow embedding of [click_params/base.py] and a verification of its
    documented conversion contract.  The Python classes become modules with
    a record of the instance attributes and a [convert] function; raising
    and catching exceptions is an explicit result type with a single
    exception channel, as in Python. *)

From Stdlib Require Import String Ascii List ZArith Bool Lia DecimalString.
Import ListNotations.
Open Scope string_scope.

(** ** click: the objects [convert] receives next to the raw value

    [click.Parameter] and [click.Context]; the conversions hand them on
    and never look inside. *)
Record ClickParameter := mkParameter { param_name : string }.
Record ClickContext := mkContext { info_name : string }.

(** ** Python: exceptions and results *)

Module Py.

(** A raised exception: the names of the classes in the method
    resolution order of its type (most specific first), its message and,
    for click's usage errors, the parameter and context it carries. *)
Record exception := mkException {
  exc_mro : list string;
  exc_message : string;
  exc_param : option ClickParameter;
  exc_ctx : option ClickContext
}.

(** Outcome of a call: a returned value or a raised exception. *)
Inductive result (A : Type) : Type :=
| Return (a : A)
| Raise (e : exception).
Arguments Return {A} a.
Arguments Raise {A} e.

Definition bind {A B} (r : result A) (k : A -> result B) : result B :=
  match r with
  | Return a => k a
  | Raise e => Raise e
  end.

Notation "x <- c ;; k" := (bind c (fun x => k))
  (at level 61, c at next level, right associativity).

(** [isinstance(e, cls)]: [cls] is one of the classes of the type of [e]. *)
Definition isinstance (e : exception) (cls : string) : bool :=
  existsb (String.eqb cls) (exc_mro e).

(** [except classes:] with a class or a tuple of classes. *)
Definition except_matches (e : exception) (classes : list string) : bool :=
  existsb (isinstance e) classes.

Definition builtin_error (cls : string) (bases : list string) (msg : string)
  : exception :=
  mkException (cls :: bases ++ ["Exception"; "BaseException"]) msg None None.

Definition ValueError := builtin_error "ValueError" [].
Definition TypeError := builtin_error "TypeError" [].
Definition KeyError := builtin_error "KeyError" ["LookupError"].
Definition IndexError := builtin_error "IndexError" ["LookupError"].

(** ** Python: the string operations the adapters call

    Strings are sequences of ASCII characters. *)

Definition char_in (c : ascii) (chars : string) : bool :=
  existsb (Ascii.eqb c) (list_ascii_of_string chars).

(** [s.lstrip(chars)], [s.rstrip(chars)] and [s.strip(chars)]: [chars] is
    a set of characters, not a substring. *)
Fixpoint lstrip (chars s : string) : string :=
  match s with
  | String c s' => if char_in c chars then lstrip chars s' else s
  | EmptyString => EmptyString
  end.

Fixpoint rstrip (chars s : string) : string :=
  match s with
  | String c s' =>
      match rstrip chars s' with
      | EmptyString => if char_in c chars then EmptyString else String c EmptyString
      | r => String c r
      end
  | EmptyString => EmptyString
  end.

Definition strip (chars s : string) : string := rstrip chars (lstrip chars s).

(** [s.split(sep)] for a given separator: the pieces between the
    non-overlapping occurrences of [sep], scanning from the left;
    [ValueError] on the empty separator.  [skip] counts the characters of
    a matched separator still to be passed over, [cur] is the piece being
    read. *)
Fixpoint split_from (sep s : string) (skip : nat) (cur : string) : list string :=
  match s with
  | EmptyString => [cur]
  | String c s' =>
      match skip with
      | S k => split_from sep s' k cur
      | O =>
          if String.prefix sep s
          then cur :: split_from sep s' (String.length sep - 1) EmptyString
          else split_from sep s' O (cur ++ String c EmptyString)
      end
  end.

Definition split (s sep : string) : result (list string) :=
  match sep with
  | EmptyString => Raise (ValueError "empty separator")
  | _ => Return (split_from sep s O EmptyString)
  end.

(** [s.upper()] on ASCII letters. *)
Definition upper_char (c : ascii) : ascii :=
  let n := nat_of_ascii c in
  if (97 <=? n)%nat && (n <=? 122)%nat then ascii_of_nat (n - 32) else c.

Fixpoint upper (s : string) : string :=
  match s with
  | String c s' => String (upper_char c) (upper s')
  | EmptyString => EmptyString
  end.

(** [str(n)] for an [int]. *)
Definition str_of_int (n : Z) : string :=
  NilZero.string_of_int (Z.to_int n).

(** [str(x)] where [x] may be [None]. *)
Definition str_of_option {A} (str : A -> string) (x : option A) : string :=
  match x with
  | Some a => str a
  | None => "None"
  end.

(** [a or b] on optional strings: [None] and the empty string are falsy. *)
Definition or_else (a b : option string) : option string :=
  match a with
  | Some EmptyString | None => b
  | Some _ => a
  end.

(** [sub in s]. *)
Fixpoint contains (sub s : string) : bool :=
  String.prefix sub s
  || match s with
     | String _ s' => contains sub s'
     | EmptyString => false
     end.

(** [repr(s)] for a string: single quotes unless the string has a single
    quote and no double quote; the quote character and the backslash are
    escaped, control characters are written as escapes. *)
Definition squote : ascii := "'"%char.
Definition dquote : ascii := ascii_of_nat 34.
Definition backslash : ascii := "\"%char.

Definition hex_digit (n : nat) : string :=
  match String.get n "0123456789abcdef" with
  | Some c => String c EmptyString
  | None => EmptyString
  end.

Definition repr_char (quote c : ascii) : string :=
  let n := nat_of_ascii c in
  if Ascii.eqb c quote || Ascii.eqb c backslash
  then String backslash (String c EmptyString)
  else if (n =? 9)%nat then String backslash "t"
  else if (n =? 10)%nat then String backslash "n"
  else if (n =? 13)%nat then String backslash "r"
  else if (n <? 32)%nat || (n =? 127)%nat
  then String backslash ("x" ++ hex_digit (n / 16) ++ hex_digit (n mod 16))
  else String c EmptyString.

Fixpoint repr_chars (quote : ascii) (s : string) : string :=
  match s with
  | String c s' => repr_char quote c ++ repr_chars quote s'
  | EmptyString => EmptyString
  end.

Definition repr_str (s : string) : string :=
  let quote :=
    if char_in squote s && negb (char_in dquote s) then dquote else squote in
  String quote (repr_chars quote s ++ String quote EmptyString).

(** [sep.join(items)]. *)
Fixpoint join (sep : string) (items : list string) : string :=
  match items with
  | [] => EmptyString
  | [x] => x
  | x :: rest => x ++ sep ++ join sep rest
  end.

(** [str(items)] for a list of strings. *)
Definition str_of_list (items : list string) : string :=
  "[" ++ join ", " (map repr_str items) ++ "]".

(** [int(s)] for a string, base 10: surrounding white space, a sign,
    decimal digits, single underscores between digits. *)
Definition is_space (c : ascii) : bool :=
  let n := nat_of_ascii c in
  ((9 <=? n)%nat && (n <=? 13)%nat) || ((28 <=? n)%nat && (n <=? 32)%nat).

Definition digit_of (c : ascii) : option Z :=
  let n := nat_of_ascii c in
  if (48 <=? n)%nat && (n <=? 57)%nat then Some (Z.of_nat (n - 48)) else None.

Fixpoint parse_digits (s : string) (acc : Z) (after_digit : bool) : option Z :=
  match s with
  | EmptyString => if after_digit then Some acc else None
  | String c s' =>
      if Ascii.eqb c "_"
      then if after_digit then parse_digits s' acc false else None
      else match digit_of c with
           | Some d => parse_digits s' (10 * acc + d)%Z true
           | None => None
           end
  end.

Fixpoint lstrip_space (s : string) : string :=
  match s with
  | String c s' => if is_space c then lstrip_space s' else s
  | EmptyString => EmptyString
  end.

Fixpoint rstrip_space (s : string) : string :=
  match s with
  | String c s' =>
      match rstrip_space s' with
      | EmptyString => if is_space c then EmptyString else String c EmptyString
      | r => String c r
      end
  | EmptyString => EmptyString
  end.

Definition int (s : string) : result Z :=
  let parsed :=
    match rstrip_space (lstrip_space s) with
    | String "-" digits => option_map Z.opp (parse_digits digits 0%Z false)
    | String "+" digits => parse_digits digits 0%Z false
    | digits => parse_digits digits 0%Z false
    end in
  match parsed with
  | Some n => Return n
  | None =>
      Raise (ValueError ("invalid literal for int() with base 10: " ++ repr_str s))
  end.

(** [template.format(key=value, ...)] with string arguments: [{{] and [}}]
    stand for a brace, [{key}] is replaced by the argument named [key].
    A field that names no argument raises [KeyError] (a positional field
    [IndexError], as no positional argument is ever passed); an unmatched
    brace raises [ValueError].  Conversions, format specifications and
    attribute or index access inside a field are not modelled: the
    templates of this module have none unless a display name brings
    braces of its own. *)
Definition is_positional (field : string) : bool :=
  forallb (fun c => match digit_of c with Some _ => true | None => false end)
          (list_ascii_of_string field).

Fixpoint get_kwarg (kwargs : list (string * string)) (field : string)
  : result string :=
  match kwargs with
  | (k, v) :: rest => if String.eqb k field then Return v else get_kwarg rest field
  | [] => Raise (KeyError (repr_str field))
  end.

Definition get_field (kwargs : list (string * string)) (field : string)
  : result string :=
  if is_positional field
  then Raise (IndexError ("Replacement index "
                          ++ (if String.eqb field "" then "0" else field)
                          ++ " out of range for positional args tuple"))
  else get_kwarg kwargs field.

Fixpoint format_from (template : string) (field : option string)
         (kwargs : list (string * string)) : result string :=
  match template with
  | EmptyString =>
      match field with
      | None => Return EmptyString
      | Some _ => Raise (ValueError "expected '}' before end of string")
      end
  | String c rest =>
      match field with
      | Some name =>
          if Ascii.eqb c "}"
          then v <- get_field kwargs name ;;
               out <- format_from rest None kwargs ;;
               Return (v ++ out)
          else if Ascii.eqb c "{"
          then Raise (ValueError "unexpected '{' in field name")
          else format_from rest (Some (name ++ String c EmptyString)) kwargs
      | None =>
          if Ascii.eqb c "{"
          then match rest with
               | String "{" rest' =>
                   out <- format_from rest' None kwargs ;; Return (String c out)
               | _ => format_from rest (Some EmptyString) kwargs
               end
          else if Ascii.eqb c "}"
          then match rest with
               | String "}" rest' =>
                   out <- format_from rest' None kwargs ;; Return (String c out)
               | _ => Raise (ValueError "Single '}' encountered in format string")
               end
          else out <- format_from rest None kwargs ;; Return (String c out)
      end
  end.

Definition format (template : string) (kwargs : list (string * string))
  : result string :=
  format_from template None kwargs.

(** [s.title()] on ASCII letters: a letter that follows a letter is
    lower-cased, any other letter is upper-cased. *)
Definition lower_char (c : ascii) : ascii :=
  let n := nat_of_ascii c in
  if (65 <=? n)%nat && (n <=? 90)%nat then ascii_of_nat (n + 32) else c.

Definition is_cased (c : ascii) : bool :=
  let n := nat_of_ascii c in
  ((65 <=? n)%nat && (n <=? 90)%nat) || ((97 <=? n)%nat && (n <=? 122)%nat).

Fixpoint title_from (previous_is_cased : bool) (s : string) : string :=
  match s with
  | String c s' =>
      if is_cased c
      then String (if previous_is_cased then lower_char c else upper_char c)
                  (title_from true s')
      else String c (title_from false s')
  | EmptyString => EmptyString
  end.

Definition title (s : string) : string := title_from false s.

Definition AttributeError := builtin_error "AttributeError" [].

(** A Python object passed where the code expects a string: what
    [isinstance(x, str)] has to tell apart. *)
Inductive object : Type :=
| PyNone
| PyBool (b : bool)
| PyInt (n : Z)
| PyBytes (b : list ascii)
| PyStr (s : string).

Definition isinstance_str (x : object) : bool :=
  match x with
  | PyStr _ => true
  | _ => false
  end.

(** The operators a range check uses on converted values, and the text an
    f-string gives them: [<], [>] and [str]. *)
Class Comparable (T : Type) := {
  lt : T -> T -> bool;
  gt : T -> T -> bool;
  str : T -> string
}.

#[export] Instance Comparable_int : Comparable Z := {
  lt := Z.ltb;
  gt := Z.gtb;
  str := str_of_int
}.

End Py.




Import Py.

(** ** click: the part of the framework the adapters rely on *)

Module Click.

(** [click.BadParameter(message, ctx=None, param=None)]. *)
Definition BadParameter (message : string) (ctx : option ClickContext)
           (param : option ClickParameter) : exception :=
  mkException
    ["BadParameter"; "UsageError"; "ClickException"; "Exception"; "BaseException"]
    message param ctx.

(** [ParamType.fail(message, param=None, ctx=None)] raises
    [BadParameter(message, ctx=ctx, param=param)]. *)
Definition fail {A} (message : string) (param : option ClickParameter)
           (ctx : option ClickContext) : result A :=
  Raise (BadParameter message ctx param).

(** What a wrapping adapter uses of the adapter it wraps: its [convert]. *)
Record ParamType (T : Type) := mkParamType {
  convert : string -> option ClickParameter -> option ClickContext -> result T
}.
Arguments mkParamType {T} convert.
Arguments convert {T} p value param ctx.

(** [except click.BadParameter]. *)
Definition is_BadParameter (e : exception) : bool := isinstance e "BadParameter".

End Click.

(** ** The adapters of [click_params.base]

    Every [__init__] takes first the [name] attribute of the class of the
    instance ([CustomParamType.name] is [None]; subclasses set their own),
    which [self.name] reads. *)

Module BaseParamType.
Section Adapter.
Context {T : Type}.

Record t := mk {
  _type : string -> result T;
  _errors : list string;
  _name : option string;
  _error_message : string
}.

Definition __init__ (cls_name : option string) (type : string -> result T)
           (errors : list string) (name : option string) : t :=
  let name' := or_else name cls_name in
  mk type errors name' ("{value} is not a valid " ++ str_of_option id name').

Definition convert (self : t) (value : string) (param : option ClickParameter)
           (ctx : option ClickContext) : result T :=
  match _type self value with
  | Return v => Return v
  | Raise e =>
      if except_matches e (_errors self)
      then message <- format (_error_message self) [("value", value)] ;;
           Click.fail message param ctx
      else Raise e
  end.

Definition as_param_type (self : t) : Click.ParamType T :=
  Click.mkParamType (convert self).

End Adapter.
Arguments t T : clear implicits.
End BaseParamType.

Module ValidatorParamType.

Record t := mk {
  _callback : string -> result bool;
  _name : option string;
  _error_message : string
}.

Definition __init__ (cls_name : option string) (callback : string -> result bool)
           (name : option string) : t :=
  let name' := or_else name cls_name in
  mk callback name' ("{value} is not a valid " ++ str_of_option id name').

Definition convert (self : t) (value : string) (param : option ClickParameter)
           (ctx : option ClickContext) : result string :=
  accepted <- _callback self value ;;
  if negb accepted
  then message <- format (_error_message self) [("value", value)] ;;
       Click.fail message param ctx
  else Return value.

Definition as_param_type (self : t) : Click.ParamType string :=
  Click.mkParamType (convert self).

End ValidatorParamType.

Module RangeParamType.
Section Adapter.
Context {T : Type} `{Comparable T}.

Record t := mk {
  _minimum : option T;
  _maximum : option T;
  _clamp : bool;
  _param_type : Click.ParamType T
}.

Definition __init__ (param_type : Click.ParamType T) (minimum maximum : option T)
           (clamp : bool) : t :=
  mk minimum maximum clamp param_type.

(** [self._minimum is not None and converted_value < self._minimum]. *)
Definition inferior_to_minimum (self : t) (converted_value : T) : bool :=
  match _minimum self with
  | Some minimum => lt converted_value minimum
  | None => false
  end.

(** [self._maximum is not None and converted_value > self._maximum]. *)
Definition superior_to_maximum (self : t) (converted_value : T) : bool :=
  match _maximum self with
  | Some maximum => gt converted_value maximum
  | None => false
  end.

(** The statements after the clamp block. *)
Definition check_range (self : t) (converted_value : T)
           (param : option ClickParameter) (ctx : option ClickContext) : result T :=
  if inferior_to_minimum self converted_value
     || superior_to_maximum self converted_value
  then
    match _minimum self, _maximum self with
    | None, maximum =>
        Click.fail (str converted_value ++ " is bigger than the maximum valid value "
                    ++ str_of_option str maximum ++ ".") param ctx
    | Some minimum, None =>
        Click.fail (str converted_value ++ " is smaller than the minimum valid value "
                    ++ str minimum ++ ".") param ctx
    | Some minimum, Some maximum =>
        Click.fail (str converted_value ++ " is not in the valid range of "
                    ++ str minimum ++ " to " ++ str maximum ++ ".") param ctx
    end
  else Return converted_value.

(** In the clamp block [return self._minimum] is reached only when
    [inferior_to_minimum] holds, hence with a minimum that is set, and
    likewise for the maximum: the bound is read from the option there. *)
Definition convert (self : t) (value : string) (param : option ClickParameter)
           (ctx : option ClickContext) : result T :=
  converted_value <- Click.convert (_param_type self) value param ctx ;;
  if _clamp self
  then
    match _minimum self, inferior_to_minimum self converted_value with
    | Some minimum, true => Return minimum
    | _, _ =>
        match _maximum self, superior_to_maximum self converted_value with
        | Some maximum, true => Return maximum
        | _, _ => check_range self converted_value param ctx
        end
    end
  else check_range self converted_value param ctx.

Definition as_param_type (self : t) : Click.ParamType T :=
  Click.mkParamType (convert self).

(** [__repr__] reads the [name] attribute of the class, [cls_name], and
    shows the bounds with [repr], here [repr_value]. *)
Definition __repr__ (cls_name : option string) (repr_value : T -> string)
           (self : t) : result string :=
  match cls_name with
  | None => Raise (AttributeError "'NoneType' object has no attribute 'split'")
  | Some name =>
      parts <- split name " " ;;
      let titles := map title parts in
      let new_name := join "" titles in
      Return (new_name ++ "(" ++ str_of_option repr_value (_minimum self) ++ ", "
              ++ str_of_option repr_value (_maximum self) ++ ")")
  end.

End Adapter.
Arguments t T : clear implicits.
End RangeParamType.

Module ListParamType.
Section Adapter.
Context {T : Type}.

Record t := mk {
  _separator : string;
  _name : option string;
  _param_type : Click.ParamType T;
  _error_message : string
}.

(** [separator] is [None] when the argument is left out (default [',']). *)
Definition __init__ (cls_name : option string) (param_type : Click.ParamType T)
           (separator : option object) (name : option string) : result t :=
  match match separator with Some x => x | None => PyStr "," end with
  | PyStr sep =>
      let name' := or_else name cls_name in
      Return (mk sep name' param_type
                 ("These items are not " ++ str_of_option id name' ++ ": {errors}"))
  | _ => Raise (TypeError "separator must be a string")
  end.

Definition _strip_separator (self : t) (expression : string) : string :=
  strip (_separator self) expression.

(** The loop of [_convert_expression_to_list] over the items still to
    convert, with the two lists it appends to. *)
Fixpoint convert_items (self : t) (items : list string) (errors : list string)
         (converted_items : list T) : result (list string * list T) :=
  match items with
  | [] => Return (errors, converted_items)
  | item :: rest =>
      match Click.convert (_param_type self) item None None with
      | Return v => convert_items self rest errors (converted_items ++ [v])
      | Raise e =>
          if Click.is_BadParameter e
          then convert_items self rest (errors ++ [item]) converted_items
          else Raise e
      end
  end.

Definition _convert_expression_to_list (self : t) (expression : string)
  : result (list string * list T) :=
  items <- split expression (_separator self) ;;
  convert_items self items [] [].

Definition convert (self : t) (value : string) (param : option ClickParameter)
           (ctx : option ClickContext) : result (list T) :=
  let value := _strip_separator self value in
  r <- _convert_expression_to_list self value ;;
  let '(errors, converted_list) := r in
  match errors with
  | _ :: _ =>
      message <- format (_error_message self) [("errors", str_of_list errors)] ;;
      Click.fail message param ctx
  | [] => Return converted_list
  end.

Definition as_param_type (self : t) : Click.ParamType (list T) :=
  Click.mkParamType (convert self).

End Adapter.
Arguments t T : clear implicits.
End ListParamType.

Module UnionParamType.
Section Adapter.
Context {T : Type}.

Record t := mk {
  _name : option string;
  _param_types : list (Click.ParamType T);
  _error_message : string
}.

Definition __init__ (cls_name : option string)
           (param_types : list (Click.ParamType T)) (name : option string) : t :=
  let name' := or_else name cls_name in
  mk name' param_types ("{value} is not a valid " ++ str_of_option id name').

(** The [for] loop over the candidates; [None] when it runs to its end
    without returning. *)
Fixpoint try_param_types (param_types : list (Click.ParamType T)) (value : string)
         (param : option ClickParameter) (ctx : option ClickContext)
  : option (result T) :=
  match param_types with
  | [] => None
  | param_type :: rest =>
      match Click.convert param_type value param ctx with
      | Return v => Some (Return v)
      | Raise e =>
          if Click.is_BadParameter e
          then try_param_types rest value param ctx
          else Some (Raise e)
      end
  end.

Definition convert (self : t) (value : string) (param : option ClickParameter)
           (ctx : option ClickContext) : result T :=
  match try_param_types (_param_types self) value param ctx with
  | Some outcome => outcome
  | None =>
      message <- format (_error_message self) [("value", value)] ;;
      Click.fail message None None
  end.

Definition as_param_type (self : t) : Click.ParamType T :=
  Click.mkParamType (convert self).

End Adapter.
Arguments t T : clear implicits.
End UnionParamType.

Module EnumParamType.
Section Adapter.
Context {M : Type}.

(** An [enum.Enum] class: its [__name__] and the map from member names
    (aliases included) to members, in definition order. *)
Record Enum := mkEnum {
  __name__ : string;
  _member_map_ : list (string * M)
}.

(** [enum_type[name]]. *)
Fixpoint lookup (members : list (string * M)) (name : string) : result M :=
  match members with
  | (k, member) :: rest => if String.eqb k name then Return member else lookup rest name
  | [] => Raise (KeyError (repr_str name))
  end.

Definition getitem (enum_type : Enum) (name : string) : result M :=
  lookup (_member_map_ enum_type) name.

Record t := mk {
  enum_type : Enum;
  transform_upper : bool
}.

(** [transform_upper] is [None] when the argument is left out (default
    [True]). *)
Definition __init__ (enum_type : Enum) (transform_upper : option bool) : t :=
  mk enum_type (match transform_upper with Some b => b | None => true end).

Definition convert (self : t) (value : string) (param : option ClickParameter)
           (ctx : option ClickContext) : result M :=
  let value := if transform_upper self then upper value else value in
  match getitem (enum_type self) value with
  | Return member => Return member
  | Raise e =>
      if isinstance e "KeyError"
      then
        message <- format "Unknown {enum_type} value: {value}"
                          [("enum_type", __name__ (enum_type self)); ("value", value)] ;;
        Raise (Click.BadParameter message None None)
      else Raise e
  end.

Definition as_param_type (self : t) : Click.ParamType M :=
  Click.mkParamType (convert self).

(** Iterating over an enumeration yields its members in definition
    order, aliases left out: the entries of the member map whose key is
    the name of their member.  [name_of] is [element.name]. *)
Definition iter (name_of : M -> string) (enum_type : Enum) : list M :=
  map snd
      (filter (fun entry => String.eqb (name_of (snd entry)) (fst entry))
              (_member_map_ enum_type)).

(** [get_metavar(param)] reads [param.required] and
    [param.param_type_name]. *)
Definition get_metavar (name_of : M -> string) (self : t) (required : bool)
           (param_type_name : string) : result string :=
  let choices_str := join "|" (map name_of (iter name_of (enum_type self))) in
  if required && String.eqb param_type_name "argument"
  then format "{{{choices_str}}}" [("choices_str", choices_str)]
  else format "[{choices_str}]" [("choices_str", choices_str)].

End Adapter.
Arguments t M : clear implicits.
Arguments Enum M : clear implicits.
End EnumParamType.


(** ** Vocabulary of the statements *)

(** A display name that brings no replacement field of its own into the
    message templates built from it. *)
Definition is_brace (c : ascii) : bool := Ascii.eqb c "{" || Ascii.eqb c "}".

Fixpoint brace_free (s : string) : bool :=
  match s with
  | String c s' => negb (is_brace c) && brace_free s'
  | EmptyString => true
  end.

(** The name an adapter shows in its messages: [str(self._name)]. *)
Definition display_name (name : option string) : string := str_of_option id name.

Section Outcomes.
Context {T : Type} (inner : Click.ParamType T).

(** The outcome of the inner conversion of one token of a list, which
    receives neither parameter nor context. *)
Definition validation_fails (token : string) : bool :=
  match Click.convert inner token None None with
  | Return _ => false
  | Raise e => Click.is_BadParameter e
  end.

Definition converts_or_fails_validation (token : string) : Prop :=
  match Click.convert inner token None None with
  | Return _ => True
  | Raise e => Click.is_BadParameter e = true
  end.

Definition converted_of (token : string) : list T :=
  match Click.convert inner token None None with
  | Return v => [v]
  | Raise _ => []
  end.

End Outcomes.

(** A candidate of a union that rejects the input with a validation error. *)
Definition rejects {T} (value : string) (param : option ClickParameter)
           (ctx : option ClickContext) (candidate : Click.ParamType T) : Prop :=
  exists e, Click.convert candidate value param ctx = Raise e
            /\ Click.is_BadParameter e = true.

(** An adapter that keeps to the contract of [convert]: whatever it is
    given, it returns a value or raises a validation error. *)
Definition well_behaved {T} (adapter : Click.ParamType T) : Prop :=
  forall value param ctx e,
    Click.convert adapter value param ctx = Raise e ->
    Click.is_BadParameter e = true.

(** [s[n:]]. *)
Fixpoint drop (n : nat) (s : string) : string :=
  match n, s with
  | S k, String _ s' => drop k s'
  | _, _ => s
  end.

(** The first and the last character of a string. *)
Definition first_char (s : string) : option ascii :=
  match s with
  | String c _ => Some c
  | EmptyString => None
  end.

Fixpoint last_char (s : string) : option ascii :=
  match s with
  | String c EmptyString => Some c
  | String _ s' => last_char s'
  | EmptyString => None
  end.

(** A string made of characters of [chars] only. *)
Fixpoint only_chars (chars s : string) : bool :=
  match s with
  | String c s' => char_in c chars && only_chars chars s'
  | EmptyString => true
  end.

Definition not_in (chars : string) (c : option ascii) : Prop :=
  match c with
  | Some c => char_in c chars = false
  | None => True
  end.

(** ** The adapters of the examples *)

(** An integer adapter: the type coercion adapter over [int], with
    [ValueError] as the error of an invalid input. *)
Definition int_adapter : BaseParamType.t Z :=
  BaseParamType.__init__ None Py.int ["ValueError"] (Some "integer").

Definition INT : Click.ParamType Z := BaseParamType.as_param_type int_adapter.

(** Ranges over the integer adapter with [minimum=1, maximum=10]. *)
Definition range_1_10 : RangeParamType.t Z :=
  RangeParamType.__init__ INT (Some 1%Z) (Some 10%Z) false.

Definition range_1_10_clamp : RangeParamType.t Z :=
  RangeParamType.__init__ INT (Some 1%Z) (Some 10%Z) true.

(** The list of integers separated by commas. *)
Definition int_list_init : result (ListParamType.t Z) :=
  ListParamType.__init__ None INT (Some (PyStr ",")) (Some "integers").

Definition int_list : ListParamType.t Z :=
  ListParamType.mk "," (Some "integers") INT "These items are not integers: {errors}".

Inductive Color : Type := RED | GREEN.

Definition ColorEnum : EnumParamType.Enum Color :=
  EnumParamType.mkEnum "Color" [("RED", RED); ("GREEN", GREEN)].

(** Unions of integer adapters under the display name "number". *)
Definition int_or_clamped : UnionParamType.t Z :=
  UnionParamType.__init__
    None [INT; RangeParamType.as_param_type range_1_10_clamp] (Some "number").

Definition ranged_or_int : UnionParamType.t Z :=
  UnionParamType.__init__
    None [RangeParamType.as_param_type range_1_10; INT] (Some "number").

Definition color_adapter : EnumParamType.t Color :=
  EnumParamType.__init__ ColorEnum None.

Definition color_name (c : Color) : string :=
  match c with
  | RED => "RED"
  | GREEN => "GREEN"
  end.

(** A validator that accepts the words without a space. *)
Definition one_word : ValidatorParamType.t :=
  ValidatorParamType.__init__
    None (fun value => Return (negb (contains " " value))) (Some "word").

(** An integer adapter that does not declare the [ValueError] of [int]. *)
Definition undeclared_int : Click.ParamType Z :=
  BaseParamType.as_param_type
    (BaseParamType.__init__ None Py.int ["KeyError"] (Some "integer")).

Definition some_param : option ClickParameter := Some (mkParameter "count").
Definition some_ctx : option ClickContext := Some (mkContext "cli").

(** ** Facts about the string operations *)

Lemma bind_Return {A B} (a : A) (k : A -> result B) : Py.bind (Return a) k = k a.
Proof. reflexivity. Qed.

Lemma append_empty_r (s : string) : s ++ "" = s.
Proof. induction s as [|c s IH]; simpl; now rewrite ?IH. Qed.

Lemma append_assoc (s t u : string) : (s ++ t) ++ u = s ++ (t ++ u).
Proof. induction s as [|c s IH]; simpl; now rewrite ?IH. Qed.

Lemma prefix_iff (sub s : string) :
  String.prefix sub s = true <-> exists rest, s = sub ++ rest.
Proof.
  revert s. induction sub as [|c sub IH]; intros s.
  - split; [intros _; now exists s | now destruct s].
  - destruct s as [|d s]; simpl; [split; [discriminate | intros [rest [=]]]|].
    destruct (Ascii.ascii_dec c d) as [->|Hcd].
    + rewrite IH. split; intros [rest Hrest]; exists rest.
      * now rewrite Hrest.
      * now injection Hrest.
    + split; [discriminate|]. intros [rest [= <- _]]. now elim Hcd.
Qed.

(** [contains] is the substring test. *)
Lemma contains_iff (sub s : string) :
  contains sub s = true <-> exists before rest, s = before ++ sub ++ rest.
Proof.
  induction s as [|c s IH]; cbn [contains].
  - rewrite orb_false_r, prefix_iff. split.
    + intros [rest Hrest]. now exists "", rest.
    + intros [[|d before] [rest Hrest]]; [now exists rest | discriminate].
  - rewrite orb_true_iff, prefix_iff, IH. split.
    + intros [[rest Hrest]|(before & rest & Hrest)].
      * now exists "", rest.
      * exists (String c before), rest. now rewrite Hrest.
    + intros ([|d before] & rest & Hrest).
      * left. now exists rest.
      * right. injection Hrest as _ Hrest. now exists before, rest.
Qed.

(** Splitting on a non-empty separator always yields a list of tokens. *)
Lemma split_nonempty_separator (s sep : string) :
  sep <> "" -> split s sep = Return (split_from sep s 0 "").
Proof. now destruct sep. Qed.

Lemma brace_free_app s t :
  brace_free (s ++ t) = brace_free s && brace_free t.
Proof.
  induction s as [|c s IH]; simpl; [reflexivity|].
  now rewrite IH, andb_assoc.
Qed.

Lemma format_from_literal s t kwargs :
  brace_free s = true ->
  format_from (s ++ t) None kwargs
  = (out <- format_from t None kwargs ;; Return (s ++ out)).
Proof.
  induction s as [|c s IH]; simpl; intros Hs.
  - now destruct (format_from t None kwargs).
  - apply andb_prop in Hs as [Hc Hs].
    unfold is_brace in Hc. apply negb_true_iff, orb_false_iff in Hc as [Ho Hcl].
    rewrite Ho, Hcl, (IH Hs).
    now destruct (format_from t None kwargs).
Qed.

Lemma format_from_brace_free s kwargs :
  brace_free s = true -> format_from s None kwargs = Return s.
Proof.
  intros Hs.
  rewrite <- (append_empty_r s) at 1.
  rewrite format_from_literal by assumption. simpl.
  now rewrite append_empty_r.
Qed.

Lemma format_value_message name value :
  brace_free name = true ->
  format ("{value} is not a valid " ++ name) [("value", value)]
  = Return (value ++ " is not a valid " ++ name).
Proof.
  intros Hname. unfold format. cbn.
  rewrite format_from_brace_free; [reflexivity|exact Hname].
Qed.

Lemma format_errors_message name errors :
  brace_free name = true ->
  format ("These items are not " ++ name ++ ": {errors}") [("errors", errors)]
  = Return ("These items are not " ++ name ++ ": " ++ errors).
Proof.
  intros Hname. unfold format.
  rewrite <- append_assoc.
  rewrite format_from_literal.
  - change (format_from ": {errors}" None [("errors", errors)])
      with (Return (A:=string) (": " ++ errors ++ "")).
    rewrite bind_Return. now rewrite append_empty_r.
  - rewrite brace_free_app. now rewrite Hname.
Qed.

(** ** Type coercion adapter *)

Section BaseParamTypeFacts.
Context {T : Type}.
Variables (cls_name : option string) (type : string -> result T)
          (errors : list string) (name : option string).

Local Abbreviation self := (BaseParamType.__init__ cls_name type errors name).

Ltac open_convert :=
  unfold BaseParamType.convert, BaseParamType.__init__ in *;
  cbn [BaseParamType._type BaseParamType._errors BaseParamType._error_message
       BaseParamType._name] in *.

Lemma base_convert_returns value param ctx v :
  type value = Return v -> BaseParamType.convert self value param ctx = Return v.
Proof. intros Hv. open_convert. now rewrite Hv. Qed.


Lemma base_convert_fails value param ctx e :
  type value = Raise e -> except_matches e errors = true ->
  brace_free (display_name (BaseParamType._name self)) = true ->
  BaseParamType.convert self value param ctx
  = Click.fail (value ++ " is not a valid " ++ display_name (BaseParamType._name self))
               param ctx.
Proof.
  intros He Hm Hname. open_convert.
  rewrite He, Hm.
  unfold display_name in Hname.
  now rewrite (format_value_message _ value Hname).
Qed.

End BaseParamTypeFacts.




(** Why the display name is asked to hold no brace: the name is pasted
    into the template with [%] before [str.format] reads it, so a field
    in the name is looked up among the arguments of [format]. *)
Example name_with_a_field :
  BaseParamType.convert
    (BaseParamType.__init__ None Py.int ["ValueError"] (Some "{kind}"))
    "x" None None
  = Raise (KeyError "'kind'").
Proof. reflexivity. Qed.

(** ** Predicate validator adapter *)

Lemma validator_convert_contract
  (cls_name : option string) (callback : string -> result bool)
  (name : option string) (value : string)
  (param : option ClickParameter) (ctx : option ClickContext) :
  let self := ValidatorParamType.__init__ cls_name callback name in
  (callback value = Return true ->
   ValidatorParamType.convert self value param ctx = Return value)
  /\ (callback value = Return false ->
      brace_free (display_name (ValidatorParamType._name self)) = true ->
      ValidatorParamType.convert self value param ctx
      = Click.fail (value ++ " is not a valid "
                    ++ display_name (ValidatorParamType._name self)) param ctx).
Proof.
  intros self.
  unfold ValidatorParamType.convert, self, ValidatorParamType.__init__.
  cbn [ValidatorParamType._callback ValidatorParamType._error_message
       ValidatorParamType._name].
  split.
  - now intros ->.
  - intros -> Hname. cbn [Py.bind negb].
    unfold display_name in Hname.
    now rewrite (format_value_message _ value Hname).
Qed.

(** ** Range adapter *)

Section RangeParamTypeFacts.
Context {T : Type} `{Comparable T}.
Variables (inner : Click.ParamType T) (minimum maximum : option T).

Ltac open_range :=
  unfold RangeParamType.convert, RangeParamType.check_range,
    RangeParamType.inferior_to_minimum, RangeParamType.superior_to_maximum,
    RangeParamType.__init__ in *;
  cbn [RangeParamType._minimum RangeParamType._maximum RangeParamType._clamp
       RangeParamType._param_type] in *.

(** Without clamping, a value outside the range is rejected with the
    phrasing chosen by the bounds that are set. *)
Lemma range_rejects value param ctx v :
  Click.convert inner value param ctx = Return v ->
  RangeParamType.inferior_to_minimum
    (RangeParamType.__init__ inner minimum maximum false) v
  || RangeParamType.superior_to_maximum
       (RangeParamType.__init__ inner minimum maximum false) v = true ->
  RangeParamType.convert (RangeParamType.__init__ inner minimum maximum false)
                         value param ctx
  = Click.fail
      match minimum, maximum with
      | None, _ =>
          str v ++ " is bigger than the maximum valid value "
          ++ str_of_option str maximum ++ "."
      | Some low, None =>
          str v ++ " is smaller than the minimum valid value " ++ str low ++ "."
      | Some low, Some high =>
          str v ++ " is not in the valid range of " ++ str low ++ " to "
          ++ str high ++ "."
      end param ctx.
Proof.
  intros Hv Hout. open_range. rewrite Hv. cbn [Py.bind].
  rewrite Hout. now destruct minimum, maximum.
Qed.

Lemma range_accepts clamp value param ctx v :
  Click.convert inner value param ctx = Return v ->
  RangeParamType.inferior_to_minimum
    (RangeParamType.__init__ inner minimum maximum clamp) v = false ->
  RangeParamType.superior_to_maximum
    (RangeParamType.__init__ inner minimum maximum clamp) v = false ->
  RangeParamType.convert (RangeParamType.__init__ inner minimum maximum clamp)
                         value param ctx = Return v.
Proof.
  intros Hv Hlow Hhigh. open_range. rewrite Hv. cbn [Py.bind].
  rewrite Hlow, Hhigh.
  destruct clamp, minimum, maximum; reflexivity.
Qed.

Lemma range_inner_error clamp value param ctx e :
  Click.convert inner value param ctx = Raise e ->
  RangeParamType.convert (RangeParamType.__init__ inner minimum maximum clamp)
                         value param ctx = Raise e.
Proof. intros He. open_range. now rewrite He. Qed.

Lemma range_clamps_to_minimum value param ctx v low :
  Click.convert inner value param ctx = Return v ->
  minimum = Some low -> lt v low = true ->
  RangeParamType.convert (RangeParamType.__init__ inner minimum maximum true)
                         value param ctx = Return low.
Proof.
  intros Hv -> Hlow. open_range. rewrite Hv. cbn [Py.bind]. now rewrite Hlow.
Qed.

Lemma range_clamps_to_maximum value param ctx v high :
  Click.convert inner value param ctx = Return v ->
  maximum = Some high -> gt v high = true ->
  RangeParamType.inferior_to_minimum
    (RangeParamType.__init__ inner minimum maximum true) v = false ->
  RangeParamType.convert (RangeParamType.__init__ inner minimum maximum true)
                         value param ctx = Return high.
Proof.
  intros Hv -> Hhigh Hlow. open_range. rewrite Hv. cbn [Py.bind].
  rewrite Hlow, Hhigh. now destruct minimum.
Qed.

Lemma range_clamp_returns value param ctx v :
  Click.convert inner value param ctx = Return v ->
  exists w,
    RangeParamType.convert (RangeParamType.__init__ inner minimum maximum true)
                           value param ctx = Return w.
Proof.
  intros Hv. open_range. rewrite Hv. cbn [Py.bind].
  destruct minimum as [low|], maximum as [high|];
    repeat match goal with
           | |- context [lt v ?b] => destruct (lt v b)
           | |- context [gt v ?b] => destruct (gt v b)
           end; cbn; eauto.
Qed.

End RangeParamTypeFacts.

(** On integers a value above the maximum is not below a minimum that
    does not exceed the maximum. *)
Lemma int_bounds_exclusive (low high v : Z) :
  (low <= high)%Z -> gt v high = true -> lt v low = false.
Proof. cbn. lia. Qed.

(** C1, as the spec states it, fails: with both bounds set the rejection
    of "15" does not speak of a value "bigger than the maximum". *)
Lemma range_1_10_message_counterexample :
  ~ (RangeParamType.convert range_1_10 "5" None None = Return 5%Z
     /\ (exists e,
            RangeParamType.convert range_1_10 "15" None None = Raise e
            /\ Click.is_BadParameter e = true
            /\ contains "bigger than the maximum valid value 10" (exc_message e) = true)
     /\ (exists e,
            RangeParamType.convert range_1_10 "0" None None = Raise e
            /\ Click.is_BadParameter e = true
            /\ contains "smaller than the minimum valid value 1" (exc_message e) = true)).
Proof.
  intros [_ [[e [He [_ Hmsg]]] _]].
  vm_compute in He. injection He as <-.
  vm_compute in Hmsg. discriminate Hmsg.
Qed.

(** C1, amended.  The range adapter with [minimum=1, maximum=10,
    clamp=False] over the integer adapter converts "5" to 5 and rejects
    "15" and "0" with the validation errors "15 is not in the valid range
    of 1 to 10." and "0 is not in the valid range of 1 to 10.", which
    carry the parameter and the context of the call. *)
Theorem range_1_10_no_clamp (param : option ClickParameter)
        (ctx : option ClickContext) :
  RangeParamType.convert range_1_10 "5" param ctx = Return 5%Z
  /\ RangeParamType.convert range_1_10 "15" param ctx
     = Raise (Click.BadParameter "15 is not in the valid range of 1 to 10." ctx param)
  /\ RangeParamType.convert range_1_10 "0" param ctx
     = Raise (Click.BadParameter "0 is not in the valid range of 1 to 10." ctx param).
Proof.
  split; [|split].
  - now apply range_accepts.
  - exact (range_rejects INT (Some 1%Z) (Some 10%Z) "15" param ctx 15%Z
             eq_refl eq_refl).
  - exact (range_rejects INT (Some 1%Z) (Some 10%Z) "0" param ctx 0%Z
             eq_refl eq_refl).
Qed.

(** The phrasings of the spec's example belong to ranges with one bound. *)
Example range_maximum_only_message :
  RangeParamType.convert (RangeParamType.__init__ INT None (Some 10%Z) false)
                         "15" None None
  = Click.fail "15 is bigger than the maximum valid value 10." None None.
Proof. reflexivity. Qed.

Example range_minimum_only_message :
  RangeParamType.convert (RangeParamType.__init__ INT (Some 1%Z) None false)
                         "0" None None
  = Click.fail "0 is smaller than the minimum valid value 1." None None.
Proof. reflexivity. Qed.

(** C4.  With clamping enabled, once the inner adapter has converted the
    input to [v]: below the set minimum the result is the minimum; above
    the set maximum (the minimum being tested first, so for a value not
    below it) the result is the maximum; and the range adapter raises no
    error of its own, whatever [v] is. *)
Theorem range_clamp_contract
  (T : Type) (C : Comparable T) (inner : Click.ParamType T)
  (minimum maximum : option T) (raw : string)
  (param : option ClickParameter) (ctx : option ClickContext) (v : T) :
  let self := RangeParamType.__init__ inner minimum maximum true in
  Click.convert inner raw param ctx = Return v ->
  (forall low, minimum = Some low -> lt v low = true ->
               RangeParamType.convert self raw param ctx = Return low)
  /\ (forall high, maximum = Some high -> gt v high = true ->
                   RangeParamType.inferior_to_minimum self v = false ->
                   RangeParamType.convert self raw param ctx = Return high)
  /\ (exists w, RangeParamType.convert self raw param ctx = Return w).
Proof.
  intros self Hv. repeat split.
  - intros low Hmin Hlow. now apply range_clamps_to_minimum with (v := v).
  - intros high Hmax Hhigh Hlow. now apply range_clamps_to_maximum with (v := v).
  - now apply range_clamp_returns with (v := v).
Qed.

Lemma range_clamp_contract_witness :
  RangeParamType.convert range_1_10_clamp "15" some_param some_ctx = Return 10%Z
  /\ RangeParamType.convert range_1_10_clamp "0" some_param some_ctx = Return 1%Z.
Proof.
  split.
  - apply (proj1 (proj2 (range_clamp_contract Z Comparable_int INT (Some 1%Z) (Some 10%Z)
                           "15" some_param some_ctx 15%Z eq_refl)) 10%Z eq_refl eq_refl).
    apply (int_bounds_exclusive 1 10 15); [lia | reflexivity].
  - exact (proj1 (range_clamp_contract Z Comparable_int INT (Some 1%Z) (Some 10%Z)
                    "0" some_param some_ctx 0%Z eq_refl) 1%Z eq_refl eq_refl).
Defined.

(** ** List adapter *)

Section ListParamTypeFacts.
Context {T : Type}.
Variables (cls_name : option string) (inner : Click.ParamType T)
          (separator : option object) (name : option string).

(** What a successful construction stores. *)
Lemma list_init_fields self :
  ListParamType.__init__ cls_name inner separator name = Return self ->
  ListParamType._param_type self = inner
  /\ ListParamType._name self = or_else name cls_name
  /\ ListParamType._error_message self
     = "These items are not " ++ display_name (or_else name cls_name) ++ ": {errors}"
  /\ match separator with
     | Some x => x = PyStr (ListParamType._separator self)
     | None => ListParamType._separator self = ","
     end.
Proof.
  unfold ListParamType.__init__.
  destruct separator as [[ | | | |sep]|]; try discriminate;
    intros [= <-]; cbn; auto.
Qed.

(** The loop appends the rejected tokens and the converted values to its
    two lists, each in the order of the tokens. *)
Lemma convert_items_spec self items errors converted_items :
  ListParamType._param_type self = inner ->
  Forall (converts_or_fails_validation inner) items ->
  ListParamType.convert_items self items errors converted_items
  = Return ((errors ++ filter (validation_fails inner) items)%list,
            (converted_items ++ flat_map (converted_of inner) items)%list).
Proof.
  intros Hinner Hitems. revert errors converted_items.
  induction Hitems as [|item rest Hitem _ IH]; intros errors converted_items.
  - cbn. now rewrite !app_nil_r.
  - cbn [ListParamType.convert_items filter flat_map].
    unfold converts_or_fails_validation, validation_fails, converted_of in *.
    rewrite Hinner.
    destruct (Click.convert inner item None None) as [v|e].
    + rewrite IH. now rewrite <- app_assoc.
    + rewrite Hitem, IH. now rewrite <- app_assoc.
Qed.

(** An exception of the inner adapter that is no validation error ends
    the loop at the first token that raises one. *)
Lemma convert_items_propagates self before item after e errors converted_items :
  ListParamType._param_type self = inner ->
  Forall (converts_or_fails_validation inner) before ->
  Click.convert inner item None None = Raise e ->
  Click.is_BadParameter e = false ->
  ListParamType.convert_items self (before ++ item :: after)%list
                              errors converted_items
  = Raise e.
Proof.
  intros Hinner Hbefore He Hkind. revert errors converted_items.
  induction Hbefore as [|tok rest Htok _ IH]; intros errors converted_items.
  - cbn. now rewrite Hinner, He, Hkind.
  - cbn [app ListParamType.convert_items].
    unfold converts_or_fails_validation in Htok. rewrite Hinner.
    destruct (Click.convert inner tok None None) as [v|e'].
    + apply IH.
    + rewrite Htok. apply IH.
Qed.

Lemma all_converted tokens values :
  Forall2 (fun token v => Click.convert inner token None None = Return v)
          tokens values ->
  Forall (converts_or_fails_validation inner) tokens
  /\ filter (validation_fails inner) tokens = []
  /\ flat_map (converted_of inner) tokens = values.
Proof.
  induction 1 as [|token v tokens values Hv _ [IHa [IHe IHc]]].
  - repeat split. constructor.
  - unfold converts_or_fails_validation, validation_fails, converted_of in *.
    split; [|split].
    + constructor; [now rewrite Hv | exact IHa].
    + cbn. now rewrite Hv.
    + cbn. rewrite Hv. cbn. now rewrite IHc.
Qed.

Lemma some_rejected tokens :
  Exists (fun token => validation_fails inner token = true) tokens ->
  filter (validation_fails inner) tokens <> [].
Proof.
  induction 1 as [token rest Htok | token rest _ IH]; cbn.
  - now rewrite Htok.
  - destruct (validation_fails inner token); [discriminate | exact IH].
Qed.

End ListParamTypeFacts.

Example int_list_constructed : int_list_init = Return int_list.
Proof. reflexivity. Qed.

(** C2, as stated for every list adapter and input, fails twice.  Under
    the display name "a}" the rejection of the token "x" is not reported
    as a validation error: [str.format] stops at the single closing
    brace of the template and raises [ValueError].  And over an inner
    adapter that rejects "15" but raises the [ValueError] of [int] on
    "x", the input "15,x" ends in that [ValueError], not in a validation
    error listing "15". *)
Lemma list_brace_name_counterexample :
  ~ (split (strip "," "x") "," = Return ["x"] ->
     validation_fails INT "x" = true ->
     exists e,
       ListParamType.convert
         (ListParamType.mk "," (Some "a}") INT "These items are not a}: {errors}")
         "x" some_param some_ctx = Raise e
       /\ Click.is_BadParameter e = true
       /\ exc_message e = "These items are not a}: ['x']")
  /\ ~ (split (strip "," "15,x") "," = Return ["15"; "x"] ->
        validation_fails
          (RangeParamType.as_param_type
             (RangeParamType.__init__ undeclared_int (Some 1%Z) (Some 10%Z) false))
          "15" = true ->
        exists e,
          ListParamType.convert
            (ListParamType.mk
               "," (Some "integers")
               (RangeParamType.as_param_type
                  (RangeParamType.__init__ undeclared_int (Some 1%Z) (Some 10%Z)
                                           false))
               "These items are not integers: {errors}")
            "15,x" some_param some_ctx = Raise e
          /\ Click.is_BadParameter e = true).
Proof.
  split.
  - intros Hclaim. destruct (Hclaim eq_refl eq_refl) as (e & He & Hkind & _).
    vm_compute in He. injection He as <-. discriminate Hkind.
  - intros Hclaim. destruct (Hclaim eq_refl eq_refl) as (e & He & Hkind).
    vm_compute in He. injection He as <-. discriminate Hkind.
Qed.

Example list_brace_name_constructed :
  ListParamType.__init__ None INT (Some (PyStr ",")) (Some "a}")
  = Return (ListParamType.mk "," (Some "a}") INT "These items are not a}: {errors}").
Proof. reflexivity. Qed.

(** C2, amended.  When splitting the stripped input gives tokens of which the
    inner adapter rejects at least one (every token being converted or
    rejected with a validation error), the list adapter returns no list:
    it fails with the validation error
    "These items are not {name}: {errors}", where [errors] is the list of
    all rejected raw tokens, and the error carries the parameter and the
    context of the call.  The display name holds no brace. *)
Theorem list_rejects_whole_list
  (T : Type) (cls_name : option string) (inner : Click.ParamType T)
  (separator : option object) (name : option string) (self : ListParamType.t T)
  (raw : string) (param : option ClickParameter) (ctx : option ClickContext)
  (tokens : list string) :
  ListParamType.__init__ cls_name inner separator name = Return self ->
  split (strip (ListParamType._separator self) raw) (ListParamType._separator self)
  = Return tokens ->
  Forall (converts_or_fails_validation inner) tokens ->
  Exists (fun token => validation_fails inner token = true) tokens ->
  brace_free (display_name (ListParamType._name self)) = true ->
  ListParamType.convert self raw param ctx
  = Raise (Click.BadParameter
             ("These items are not " ++ display_name (ListParamType._name self)
              ++ ": " ++ str_of_list (filter (validation_fails inner) tokens))
             ctx param).
Proof.
  intros Hinit Hsplit Hall Hsome Hname.
  destruct (list_init_fields _ _ _ _ _ Hinit) as (Hinner & Hn & Hmsg & _).
  unfold ListParamType.convert, ListParamType._convert_expression_to_list,
    ListParamType._strip_separator.
  rewrite Hsplit. cbn [Py.bind].
  rewrite (convert_items_spec inner self tokens [] [] Hinner Hall).
  cbn [Py.bind app].
  pose proof (some_rejected inner tokens Hsome) as Hne.
  destruct (filter (validation_fails inner) tokens) as [|bad rest] eqn:Hbad;
    [contradiction|].
  rewrite Hmsg, <- Hn.
  now rewrite (format_errors_message _ _ Hname).
Qed.

Lemma list_rejects_whole_list_witness :
  ListParamType.convert int_list ",1,2,x," some_param some_ctx
  = Raise (Click.BadParameter "These items are not integers: ['x']"
                              some_ctx some_param).
Proof.
  apply (list_rejects_whole_list Z None INT (Some (PyStr ",")) (Some "integers")
           int_list ",1,2,x," some_param some_ctx ["1"; "2"; "x"]).
  - reflexivity.
  - reflexivity.
  - repeat constructor.
  - right. right. left. reflexivity.
  - reflexivity.
Defined.

(** C8.  The converted values come in the order of the tokens: when the
    inner adapter converts every token, [convert] returns the list of its
    results, token by token; and when it converts or rejects every token,
    the two lists collected by [_convert_expression_to_list] are the
    rejected tokens and the converted values, each in the order in which
    the tokens were met. *)
Theorem list_preserves_order
  (T : Type) (cls_name : option string) (inner : Click.ParamType T)
  (separator : option object) (name : option string) (self : ListParamType.t T)
  (raw : string) (param : option ClickParameter) (ctx : option ClickContext)
  (tokens : list string) :
  ListParamType.__init__ cls_name inner separator name = Return self ->
  split (strip (ListParamType._separator self) raw) (ListParamType._separator self)
  = Return tokens ->
  (forall values,
      Forall2 (fun token v => Click.convert inner token None None = Return v)
              tokens values ->
      ListParamType.convert self raw param ctx = Return values)
  /\ (Forall (converts_or_fails_validation inner) tokens ->
      ListParamType._convert_expression_to_list
        self (strip (ListParamType._separator self) raw)
      = Return (filter (validation_fails inner) tokens,
                flat_map (converted_of inner) tokens)).
Proof.
  intros Hinit Hsplit.
  destruct (list_init_fields _ _ _ _ _ Hinit) as (Hinner & _).
  assert (Hloop : Forall (converts_or_fails_validation inner) tokens ->
                  ListParamType._convert_expression_to_list
                    self (strip (ListParamType._separator self) raw)
                  = Return (filter (validation_fails inner) tokens,
                            flat_map (converted_of inner) tokens)).
  { intros Hall. unfold ListParamType._convert_expression_to_list.
    rewrite Hsplit. cbn [Py.bind].
    now rewrite (convert_items_spec inner self tokens [] [] Hinner Hall). }
  split; [|exact Hloop].
  intros values Hvalues.
  destruct (all_converted inner tokens values Hvalues) as (Hall & Herr & Hconv).
  unfold ListParamType.convert, ListParamType._strip_separator.
  rewrite (Hloop Hall), Herr, Hconv. reflexivity.
Qed.

Lemma list_preserves_order_witness :
  ListParamType.convert int_list "1,2,3" some_param some_ctx = Return [1; 2; 3]%Z
  /\ ListParamType._convert_expression_to_list int_list "x,1,y,2"
     = Return (["x"; "y"], [1; 2]%Z).
Proof.
  split.
  - apply (proj1 (list_preserves_order Z None INT (Some (PyStr ","))
                    (Some "integers") int_list "1,2,3" some_param some_ctx
                    ["1"; "2"; "3"] eq_refl eq_refl)).
    repeat constructor.
  - apply (proj2 (list_preserves_order Z None INT (Some (PyStr ","))
                    (Some "integers") int_list "x,1,y,2" some_param some_ctx
                    ["x"; "1"; "y"; "2"] eq_refl eq_refl)).
    repeat constructor.
Defined.

(** C9.  Constructing a list adapter with a separator that is not a
    string raises [TypeError] in [__init__]: no adapter exists on which
    [convert] could be called, and the exception is no validation error. *)
Theorem list_init_rejects_non_string_separator
  (T : Type) (cls_name : option string) (inner : Click.ParamType T)
  (separator : object) (name : option string) :
  isinstance_str separator = false ->
  ListParamType.__init__ cls_name inner (Some separator) name
  = Raise (TypeError "separator must be a string")
  /\ Click.is_BadParameter (TypeError "separator must be a string") = false
  /\ isinstance (TypeError "separator must be a string") "TypeError" = true.
Proof.
  intros Hsep. split; [|split; reflexivity].
  destruct separator; try reflexivity; discriminate Hsep.
Qed.

Lemma list_init_rejects_non_string_separator_witness :
  ListParamType.__init__ None INT (Some (PyInt 1)) (Some "integers")
  = Raise (TypeError "separator must be a string").
Proof.
  exact (proj1 (list_init_rejects_non_string_separator
                  Z None INT (PyInt 1) (Some "integers") eq_refl)).
Defined.

(** C10.  The empty string passes the check of [__init__], and the
    adapter so constructed raises [ValueError], which is no validation
    error, on every call of [convert]: [split] refuses the empty
    separator. *)
Theorem list_empty_separator_always_raises
  (T : Type) (cls_name : option string) (inner : Click.ParamType T)
  (name : option string) :
  exists self,
    ListParamType.__init__ cls_name inner (Some (PyStr "")) name = Return self
    /\ forall raw param ctx,
         ListParamType.convert self raw param ctx
         = Raise (ValueError "empty separator")
         /\ Click.is_BadParameter (ValueError "empty separator") = false.
Proof.
  eexists. split; [reflexivity|].
  intros raw param ctx. split; reflexivity.
Qed.

(** ** Union adapter *)

Section UnionParamTypeFacts.
Context {T : Type}.
Variables (value : string) (param : option ClickParameter)
          (ctx : option ClickContext).



End UnionParamTypeFacts.




(** The later candidate of [int_or_clamped] would have answered 10. *)
Example later_candidate_differs :
  RangeParamType.convert range_1_10_clamp "15" some_param some_ctx = Return 10%Z.
Proof. reflexivity. Qed.

(** ** Enumeration adapter *)

Section EnumParamTypeFacts.
Context {M : Type}.

Lemma lookup_hit (members : list (string * M)) name member :
  NoDup (map fst members) -> In (name, member) members ->
  EnumParamType.lookup members name = Return member.
Proof.
  induction members as [|[k m] rest IH]; intros Hnodup Hin; [contradiction|].
  cbn in *. inversion Hnodup as [|? ? Hfresh Hrest]; subst.
  destruct Hin as [[= -> ->]|Hin].
  - now rewrite String.eqb_refl.
  - destruct (String.eqb_spec k name) as [->|_].
    + exfalso. apply Hfresh. change name with (fst (name, member)).
      now apply in_map.
    + now apply IH.
Qed.

Lemma lookup_miss (members : list (string * M)) name :
  ~ In name (map fst members) ->
  EnumParamType.lookup members name = Raise (KeyError (repr_str name)).
Proof.
  induction members as [|[k m] rest IH]; intros Hmiss; [reflexivity|].
  cbn in *. destruct (String.eqb_spec k name) as [->|_].
  - exfalso. apply Hmiss. now left.
  - apply IH. intros Hin. apply Hmiss. now right.
Qed.

Lemma format_unknown_message enum_name value :
  format "Unknown {enum_type} value: {value}"
         [("enum_type", enum_name); ("value", value)]
  = Return ("Unknown " ++ enum_name ++ " value: " ++ value).
Proof.
  unfold format. cbn.
  change (get_field [("enum_type", enum_name); ("value", value)] "enum_type")
    with (Return enum_name).
  change (get_field [("enum_type", enum_name); ("value", value)] "value")
    with (Return value).
  cbn. now rewrite append_empty_r.
Qed.

End EnumParamTypeFacts.

(** C6.  With the case normalisation left at its default or set, the
    enumeration adapter looks up the upper-cased input among the member
    names: it returns the member of exactly that name, and fails with
    "Unknown {enum_type_name} value: {value}", [value] being the
    upper-cased input, when no member has that name. *)
Theorem enum_convert_contract
  (M : Type) (enum : EnumParamType.Enum M) (flag : option bool) (raw : string)
  (param : option ClickParameter) (ctx : option ClickContext) :
  let self := EnumParamType.__init__ enum flag in
  flag <> Some false ->
  NoDup (map fst (EnumParamType._member_map_ enum)) ->
  (forall member,
      In (upper raw, member) (EnumParamType._member_map_ enum) ->
      EnumParamType.convert self raw param ctx = Return member)
  /\ (~ In (upper raw) (map fst (EnumParamType._member_map_ enum)) ->
      EnumParamType.convert self raw param ctx
      = Raise (Click.BadParameter
                 ("Unknown " ++ EnumParamType.__name__ enum ++ " value: " ++ upper raw)
                 None None)).
Proof.
  intros self Hflag Hnodup.
  assert (Hupper : EnumParamType.transform_upper self = true).
  { unfold self, EnumParamType.__init__. cbn.
    destruct flag as [[|]|]; [reflexivity|contradiction|reflexivity]. }
  unfold EnumParamType.convert, EnumParamType.getitem. rewrite Hupper.
  split.
  - intros member Hin. unfold self. cbn [EnumParamType.enum_type EnumParamType.__init__].
    now rewrite (lookup_hit _ _ _ Hnodup Hin).
  - intros Hmiss. unfold self. cbn [EnumParamType.enum_type EnumParamType.__init__].
    rewrite (lookup_miss _ _ Hmiss).
    change (isinstance (KeyError (repr_str (upper raw))) "KeyError") with true.
    cbv iota. now rewrite format_unknown_message.
Qed.

Lemma enum_convert_contract_witness :
  EnumParamType.convert color_adapter "red" some_param some_ctx = Return RED
  /\ EnumParamType.convert color_adapter "blue" some_param some_ctx
     = Raise (Click.BadParameter "Unknown Color value: BLUE" None None).
Proof.
  assert (Hnames : NoDup (map fst (EnumParamType._member_map_ ColorEnum))).
  { cbn. repeat constructor; cbn; intuition discriminate. }
  split.
  - apply (proj1 (enum_convert_contract Color ColorEnum None "red" some_param
                    some_ctx ltac:(discriminate) Hnames)).
    cbn. now left.
  - apply (proj2 (enum_convert_contract Color ColorEnum None "blue" some_param
                    some_ctx ltac:(discriminate) Hnames)).
    cbn. intuition discriminate.
Defined.

(** Without normalisation the lookup is case sensitive. *)
Example enum_without_normalisation :
  EnumParamType.convert (EnumParamType.__init__ ColorEnum (Some false))
                        "red" None None
  = Raise (Click.BadParameter "Unknown Color value: red" None None).
Proof. reflexivity. Qed.

(** ** What a validation error carries *)

(** C7 (violated by the code).  Called with a parameter and a context,
    the union adapter and the enumeration adapter signal their validation
    errors without either of them, where the type coercion, range and
    list adapters pass both on. *)
Theorem union_and_enum_errors_carry_no_param_nor_ctx :
  UnionParamType.convert ranged_or_int "x" some_param some_ctx
  = Raise (Click.BadParameter "x is not a valid number" None None)
  /\ EnumParamType.convert color_adapter "blue" some_param some_ctx
     = Raise (Click.BadParameter "Unknown Color value: BLUE" None None)
  /\ some_param <> None /\ some_ctx <> None
  /\ BaseParamType.convert int_adapter "x" some_param some_ctx
     = Raise (Click.BadParameter "x is not a valid integer" some_ctx some_param)
  /\ RangeParamType.convert range_1_10 "15" some_param some_ctx
     = Raise (Click.BadParameter "15 is not in the valid range of 1 to 10."
                                 some_ctx some_param)
  /\ ListParamType.convert int_list "1,x" some_param some_ctx
     = Raise (Click.BadParameter "These items are not integers: ['x']"
                                 some_ctx some_param).
Proof.
  repeat (split; [first [reflexivity | discriminate]|]). reflexivity.
Qed.

(** * Further properties of the adapters *)

(** ** Type coercion adapter *)

Lemma int_raises_ValueError value e :
  Py.int value = Raise e -> except_matches e ["ValueError"] = true.
Proof.
  unfold Py.int.
  destruct (match rstrip_space (lstrip_space value) with
            | String "-" digits => option_map Z.opp (parse_digits digits 0%Z false)
            | String "+" digits => parse_digits digits 0%Z false
            | digits => parse_digits digits 0%Z false
            end); [discriminate|].
  now intros [= <-].
Qed.

Lemma INT_well_behaved : well_behaved INT.
Proof.
  intros value param ctx e. unfold INT, int_adapter.
  cbn [BaseParamType.as_param_type Click.convert].
  destruct (Py.int value) as [v|e'] eqn:Hv.
  - now rewrite (base_convert_returns None Py.int ["ValueError"] (Some "integer")
                   value param ctx v Hv).
  - rewrite (base_convert_fails None Py.int ["ValueError"] (Some "integer")
               value param ctx e' Hv (int_raises_ValueError _ _ Hv) eq_refl).
    now intros [= <-].
Qed.

(** When the conversion function raises nothing but designated errors
    (and the display name holds no brace), the adapter raises nothing but
    validation errors. *)
Theorem base_well_behaved
  (T : Type) (cls_name : option string) (type : string -> result T)
  (errors : list string) (name : option string) :
  (forall value e, type value = Raise e -> except_matches e errors = true) ->
  brace_free (display_name (or_else name cls_name)) = true ->
  well_behaved (BaseParamType.as_param_type
                  (BaseParamType.__init__ cls_name type errors name)).
Proof.
  intros Htype Hname value param ctx e.
  cbn [BaseParamType.as_param_type Click.convert].
  destruct (type value) as [v|e'] eqn:Hv.
  - now rewrite (base_convert_returns cls_name type errors name value param ctx v Hv).
  - rewrite (base_convert_fails cls_name type errors name value param ctx e' Hv
               (Htype _ _ Hv) Hname).
    now intros [= <-].
Qed.

Lemma base_well_behaved_witness :
  well_behaved (BaseParamType.as_param_type
                  (BaseParamType.__init__ None Py.int ["ValueError"] (Some "integer"))).
Proof.
  apply (base_well_behaved Z None Py.int ["ValueError"] (Some "integer")).
  - exact int_raises_ValueError.
  - reflexivity.
Defined.

(** ** Predicate validator adapter *)

(** The predicate validator passes an accepted input on unchanged,
    rejects a refused one with "{raw} is not a valid {name}" (the display
    name holding no brace) and the parameter and context of the call,
    and lets an exception of the callback through as it is. *)
Theorem validator_convert_outcomes
  (cls_name : option string) (callback : string -> result bool)
  (name : option string) (value : string)
  (param : option ClickParameter) (ctx : option ClickContext) :
  let self := ValidatorParamType.__init__ cls_name callback name in
  let shown := display_name (ValidatorParamType._name self) in
  (callback value = Return true ->
   ValidatorParamType.convert self value param ctx = Return value)
  /\ (callback value = Return false -> brace_free shown = true ->
      ValidatorParamType.convert self value param ctx
      = Raise (Click.BadParameter (value ++ " is not a valid " ++ shown) ctx param))
  /\ (forall e, callback value = Raise e ->
                ValidatorParamType.convert self value param ctx = Raise e).
Proof.
  intros self shown.
  destruct (validator_convert_contract cls_name callback name value param ctx)
    as [Haccept Hreject].
  split; [exact Haccept | split; [exact Hreject|]].
  intros e He. unfold ValidatorParamType.convert, self, ValidatorParamType.__init__.
  cbn [ValidatorParamType._callback]. now rewrite He.
Qed.

Lemma validator_convert_outcomes_witness :
  ValidatorParamType.convert one_word "hello" some_param some_ctx = Return "hello"
  /\ ValidatorParamType.convert one_word "hello world" some_param some_ctx
     = Raise (Click.BadParameter "hello world is not a valid word"
                                 some_ctx some_param)
  /\ ValidatorParamType.convert
       (ValidatorParamType.__init__
          None (fun value => n <- Py.int value ;; Return (0 <? n)%Z)
          (Some "positive"))
       "x" some_param some_ctx
     = Raise (ValueError "invalid literal for int() with base 10: 'x'").
Proof.
  pose proof (validator_convert_outcomes
                None (fun value => Return (negb (contains " " value)))
                (Some "word")) as contract.
  split; [|split].
  - exact (proj1 (contract "hello" some_param some_ctx) eq_refl).
  - exact (proj1 (proj2 (contract "hello world" some_param some_ctx))
             eq_refl eq_refl).
  - exact (proj2 (proj2 (validator_convert_outcomes
                           None (fun value => n <- Py.int value ;; Return (0 <? n)%Z)
                           (Some "positive") "x" some_param some_ctx))
             _ eq_refl).
Defined.

(** ** Range adapter *)

(** The range adapter stands aside where it has nothing to check: a
    failure of the inner adapter passes through unchanged, clamping or
    not, and with neither bound set the adapter is its inner adapter. *)
Theorem range_passes_inner_through
  (T : Type) (C : Comparable T) (inner : Click.ParamType T)
  (minimum maximum : option T) (clamp : bool) (raw : string)
  (param : option ClickParameter) (ctx : option ClickContext) :
  (forall e, Click.convert inner raw param ctx = Raise e ->
             RangeParamType.convert
               (RangeParamType.__init__ inner minimum maximum clamp) raw param ctx
             = Raise e)
  /\ RangeParamType.convert (RangeParamType.__init__ inner None None clamp)
                            raw param ctx
     = Click.convert inner raw param ctx.
Proof.
  split; [intros e He; now apply range_inner_error|].
  unfold RangeParamType.convert, RangeParamType.check_range,
    RangeParamType.inferior_to_minimum, RangeParamType.superior_to_maximum,
    RangeParamType.__init__.
  cbn [RangeParamType._minimum RangeParamType._maximum RangeParamType._clamp
       RangeParamType._param_type].
  destruct (Click.convert inner raw param ctx) as [v|e]; [|reflexivity].
  now destruct clamp.
Qed.

Lemma range_passes_inner_through_witness :
  RangeParamType.convert range_1_10_clamp "x" some_param some_ctx
  = Raise (Click.BadParameter "x is not a valid integer" some_ctx some_param).
Proof.
  exact (proj1 (range_passes_inner_through Z Comparable_int INT (Some 1%Z)
                  (Some 10%Z) true "x" some_param some_ctx) _ eq_refl).
Defined.

(** Without clamping, a converted value within the bounds is returned
    and one outside is rejected with the parameter and context of the
    call, in the wording that the set bounds select. *)
Theorem range_no_clamp_contract
  (T : Type) (C : Comparable T) (inner : Click.ParamType T)
  (minimum maximum : option T) (raw : string)
  (param : option ClickParameter) (ctx : option ClickContext) (v : T) :
  let self := RangeParamType.__init__ inner minimum maximum false in
  Click.convert inner raw param ctx = Return v ->
  (RangeParamType.inferior_to_minimum self v = false ->
   RangeParamType.superior_to_maximum self v = false ->
   RangeParamType.convert self raw param ctx = Return v)
  /\ (forall high, minimum = None -> maximum = Some high -> gt v high = true ->
        RangeParamType.convert self raw param ctx
        = Raise (Click.BadParameter
                   (str v ++ " is bigger than the maximum valid value "
                    ++ str high ++ ".") ctx param))
  /\ (forall low, minimum = Some low -> maximum = None -> lt v low = true ->
        RangeParamType.convert self raw param ctx
        = Raise (Click.BadParameter
                   (str v ++ " is smaller than the minimum valid value "
                    ++ str low ++ ".") ctx param))
  /\ (forall low high, minimum = Some low -> maximum = Some high ->
        lt v low || gt v high = true ->
        RangeParamType.convert self raw param ctx
        = Raise (Click.BadParameter
                   (str v ++ " is not in the valid range of " ++ str low
                    ++ " to " ++ str high ++ ".") ctx param)).
Proof.
  intros self Hv. split; [|split; [|split]].
  - intros Hlow Hhigh. now apply range_accepts.
  - intros high -> -> Hout.
    unfold self. rewrite (range_rejects inner None (Some high) raw param ctx v Hv).
    + reflexivity.
    + cbn. exact Hout.
  - intros low -> -> Hout.
    unfold self. rewrite (range_rejects inner (Some low) None raw param ctx v Hv).
    + reflexivity.
    + cbn. now rewrite Hout.
  - intros low high -> -> Hout.
    unfold self.
    rewrite (range_rejects inner (Some low) (Some high) raw param ctx v Hv).
    + reflexivity.
    + cbn. exact Hout.
Qed.

Lemma range_no_clamp_contract_witness :
  RangeParamType.convert (RangeParamType.__init__ INT None (Some 10%Z) false)
                         "15" some_param some_ctx
  = Raise (Click.BadParameter "15 is bigger than the maximum valid value 10."
                              some_ctx some_param)
  /\ RangeParamType.convert (RangeParamType.__init__ INT (Some 1%Z) None false)
                            "0" some_param some_ctx
     = Raise (Click.BadParameter "0 is smaller than the minimum valid value 1."
                                 some_ctx some_param)
  /\ RangeParamType.convert (RangeParamType.__init__ INT (Some 1%Z) None false)
                            "7" some_param some_ctx = Return 7%Z.
Proof.
  split; [|split].
  - exact (proj1 (proj2 (range_no_clamp_contract Z Comparable_int INT None
                           (Some 10%Z) "15" some_param some_ctx 15%Z eq_refl))
             10%Z eq_refl eq_refl eq_refl).
  - exact (proj1 (proj2 (proj2 (range_no_clamp_contract Z Comparable_int INT
                                  (Some 1%Z) None "0" some_param some_ctx 0%Z
                                  eq_refl)))
             1%Z eq_refl eq_refl eq_refl).
  - exact (proj1 (range_no_clamp_contract Z Comparable_int INT (Some 1%Z) None
                    "7" some_param some_ctx 7%Z eq_refl) eq_refl eq_refl).
Defined.

(** On integers, with clamping and bounds in order, the result is the
    converted value brought into the interval. *)
Theorem range_int_clamp_closed_form
  (inner : Click.ParamType Z) (low high : Z) (raw : string)
  (param : option ClickParameter) (ctx : option ClickContext) (v : Z) :
  (low <= high)%Z ->
  Click.convert inner raw param ctx = Return v ->
  RangeParamType.convert
    (RangeParamType.__init__ inner (Some low) (Some high) true) raw param ctx
  = Return (Z.max low (Z.min high v)).
Proof.
  intros Horder Hv.
  unfold RangeParamType.convert, RangeParamType.check_range,
    RangeParamType.inferior_to_minimum, RangeParamType.superior_to_maximum,
    RangeParamType.__init__.
  cbn [RangeParamType._minimum RangeParamType._maximum RangeParamType._clamp
       RangeParamType._param_type lt gt Comparable_int].
  rewrite Hv. cbn [Py.bind].
  destruct (Z.ltb_spec v low) as [Hlow|Hlow].
  - f_equal. lia.
  - destruct (Z.gtb_spec v high) as [Hhigh|Hhigh]; cbn [orb]; f_equal; lia.
Qed.

Lemma range_int_clamp_closed_form_witness :
  RangeParamType.convert range_1_10_clamp "-3" some_param some_ctx = Return 1%Z.
Proof.
  apply (range_int_clamp_closed_form INT 1 10 "-3" some_param some_ctx (-3)%Z).
  - lia.
  - reflexivity.
Defined.

(** On integers, with the bounds in order when both are set, whatever the
    range adapter returns lies within the bounds that are set. *)
Theorem range_int_result_within_bounds
  (inner : Click.ParamType Z) (minimum maximum : option Z) (clamp : bool)
  (raw : string) (param : option ClickParameter) (ctx : option ClickContext)
  (w : Z) :
  (forall low high, minimum = Some low -> maximum = Some high -> (low <= high)%Z) ->
  RangeParamType.convert (RangeParamType.__init__ inner minimum maximum clamp)
                         raw param ctx = Return w ->
  (forall low, minimum = Some low -> (low <= w)%Z)
  /\ (forall high, maximum = Some high -> (w <= high)%Z).
Proof.
  intros Horder.
  unfold RangeParamType.convert, RangeParamType.check_range,
    RangeParamType.inferior_to_minimum, RangeParamType.superior_to_maximum,
    RangeParamType.__init__, Click.fail.
  cbn [RangeParamType._minimum RangeParamType._maximum RangeParamType._clamp
       RangeParamType._param_type lt gt Comparable_int].
  destruct (Click.convert inner raw param ctx) as [v|e]; [|discriminate].
  cbn [Py.bind].
  destruct minimum as [low|], maximum as [high|];
    try specialize (Horder _ _ eq_refl eq_refl);
    repeat match goal with
           | |- context [(v <? ?b)%Z] => destruct (Z.ltb_spec v b)
           | |- context [(v >? ?b)%Z] => destruct (Z.gtb_spec v b)
           end;
    destruct clamp; cbn [orb]; intros [= <-];
      split; intros ? [= <-]; lia.
Qed.

Lemma range_int_result_within_bounds_witness :
  RangeParamType.convert range_1_10_clamp "15" some_param some_ctx = Return 10%Z
  /\ (forall low, Some 1%Z = Some low -> (low <= 10)%Z)
  /\ (forall high, Some 10%Z = Some high -> (10 <= high)%Z).
Proof.
  split; [reflexivity|].
  apply (range_int_result_within_bounds INT (Some 1%Z) (Some 10%Z) true "15"
           some_param some_ctx 10%Z).
  - intros low high [= <-] [= <-]. lia.
  - reflexivity.
Defined.

(** What a range adapter raises is what its inner adapter raised, or a
    validation error of its own. *)
Lemma range_raises
  {T : Type} `{Comparable T} (inner : Click.ParamType T)
  (minimum maximum : option T) (clamp : bool) value param ctx e :
  RangeParamType.convert (RangeParamType.__init__ inner minimum maximum clamp)
                         value param ctx = Raise e ->
  Click.convert inner value param ctx = Raise e
  \/ (exists message, e = Click.BadParameter message ctx param).
Proof.
  unfold RangeParamType.convert, RangeParamType.check_range,
    RangeParamType.inferior_to_minimum, RangeParamType.superior_to_maximum,
    RangeParamType.__init__, Click.fail.
  cbn [RangeParamType._minimum RangeParamType._maximum RangeParamType._clamp
       RangeParamType._param_type].
  destruct (Click.convert inner value param ctx) as [v|e']; cbn [Py.bind];
    [|now left].
  destruct clamp, minimum as [low|], maximum as [high|];
    repeat match goal with
           | |- context [lt v ?b] => destruct (lt v b)
           | |- context [gt v ?b] => destruct (gt v b)
           end; cbn [orb]; intros [= <-]; right; eexists; reflexivity.
Qed.



(** ** List adapter *)

Section ListParamTypeMore.
Context {T : Type}.
Variable inner : Click.ParamType T.

(** The loop returns only when no token raised anything but a validation
    error. *)
Lemma convert_items_returns self items errors converted_items outcome :
  ListParamType._param_type self = inner ->
  ListParamType.convert_items self items errors converted_items = Return outcome ->
  Forall (converts_or_fails_validation inner) items.
Proof.
  intros Hinner. revert errors converted_items.
  induction items as [|item rest IH]; intros errors converted_items Hret;
    [constructor|].
  cbn [ListParamType.convert_items] in Hret. rewrite Hinner in Hret.
  constructor.
  - unfold converts_or_fails_validation.
    destruct (Click.convert inner item None None) as [v|e]; [exact I|].
    now destruct (Click.is_BadParameter e).
  - destruct (Click.convert inner item None None) as [v|e].
    + exact (IH _ _ Hret).
    + destruct (Click.is_BadParameter e); [exact (IH _ _ Hret) | discriminate].
Qed.

Lemma none_rejected tokens :
  Forall (converts_or_fails_validation inner) tokens ->
  filter (validation_fails inner) tokens = [] ->
  Forall2 (fun token v => Click.convert inner token None None = Return v)
          tokens (flat_map (converted_of inner) tokens).
Proof.
  induction 1 as [|token rest Htoken _ IH]; cbn; [constructor|].
  unfold converts_or_fails_validation, validation_fails, converted_of in *.
  destruct (Click.convert inner token None None) as [v|e] eqn:Hconv.
  - intros Hnone. cbn. constructor; [exact Hconv | exact (IH Hnone)].
  - rewrite Htoken. discriminate.
Qed.

Lemma partition_lengths tokens :
  Forall (converts_or_fails_validation inner) tokens ->
  (length (filter (validation_fails inner) tokens)
   + length (flat_map (converted_of inner) tokens) = length tokens)%nat.
Proof.
  induction 1 as [|token rest Htoken _ IH]; cbn; [reflexivity|].
  unfold converts_or_fails_validation, validation_fails, converted_of in *.
  destruct (Click.convert inner token None None) as [v|e].
  - cbn. lia.
  - rewrite Htoken. cbn. lia.
Qed.

End ListParamTypeMore.

(** An exception of the inner adapter that is no validation error leaves
    the list adapter as it is, from the first token that raises one,
    whatever the tokens before it were rejected or converted. *)
Theorem list_propagates_other_exception
  (T : Type) (cls_name : option string) (inner : Click.ParamType T)
  (separator : option object) (name : option string) (self : ListParamType.t T)
  (raw : string) (param : option ClickParameter) (ctx : option ClickContext)
  (before : list string) (item : string) (after : list string) (e : exception) :
  ListParamType.__init__ cls_name inner separator name = Return self ->
  split (strip (ListParamType._separator self) raw) (ListParamType._separator self)
  = Return (before ++ item :: after)%list ->
  Forall (converts_or_fails_validation inner) before ->
  Click.convert inner item None None = Raise e ->
  Click.is_BadParameter e = false ->
  ListParamType.convert self raw param ctx = Raise e.
Proof.
  intros Hinit Hsplit Hbefore He Hkind.
  destruct (list_init_fields _ _ _ _ _ Hinit) as (Hinner & _).
  unfold ListParamType.convert, ListParamType._convert_expression_to_list,
    ListParamType._strip_separator.
  rewrite Hsplit. cbn [Py.bind].
  now rewrite (convert_items_propagates inner self before item after e [] []
                 Hinner Hbefore He Hkind).
Qed.

Lemma list_propagates_other_exception_witness :
  ListParamType.convert
    (ListParamType.mk "," (Some "integers") undeclared_int
                      "These items are not integers: {errors}")
    "1,x,2" some_param some_ctx
  = Raise (ValueError "invalid literal for int() with base 10: 'x'").
Proof.
  apply (list_propagates_other_exception Z None undeclared_int (Some (PyStr ","))
           (Some "integers") _ "1,x,2" some_param some_ctx ["1"] "x" ["2"]).
  - reflexivity.
  - reflexivity.
  - repeat constructor.
  - reflexivity.
  - reflexivity.
Defined.

(** What the list adapter returns was converted token by token: a
    returned list has one value for each token, the result of the inner
    adapter on that token. *)
Theorem list_returned_values_come_from_tokens
  (T : Type) (cls_name : option string) (inner : Click.ParamType T)
  (separator : option object) (name : option string) (self : ListParamType.t T)
  (raw : string) (param : option ClickParameter) (ctx : option ClickContext)
  (tokens : list string) (values : list T) :
  ListParamType.__init__ cls_name inner separator name = Return self ->
  split (strip (ListParamType._separator self) raw) (ListParamType._separator self)
  = Return tokens ->
  ListParamType.convert self raw param ctx = Return values ->
  Forall2 (fun token v => Click.convert inner token None None = Return v)
          tokens values.
Proof.
  intros Hinit Hsplit.
  destruct (list_init_fields _ _ _ _ _ Hinit) as (Hinner & _).
  unfold ListParamType.convert, ListParamType._convert_expression_to_list,
    ListParamType._strip_separator.
  rewrite Hsplit. cbn [Py.bind].
  destruct (ListParamType.convert_items self tokens [] []) as [[errors converted]|e]
    eqn:Hloop; [|discriminate].
  pose proof (convert_items_returns inner self tokens [] [] _ Hinner Hloop) as Hall.
  rewrite (convert_items_spec inner self tokens [] [] Hinner Hall) in Hloop.
  cbn [app] in Hloop. injection Hloop as <- <-. cbn [Py.bind].
  destruct (filter (validation_fails inner) tokens) as [|bad rest] eqn:Hbad.
  - intros [= <-]. now apply none_rejected.
  - destruct (format _ _); discriminate.
Qed.

Lemma list_returned_values_come_from_tokens_witness :
  Forall2 (fun token v => Click.convert INT token None None = Return v)
          ["3"; "1"; "2"] [3; 1; 2]%Z.
Proof.
  apply (list_returned_values_come_from_tokens Z None INT (Some (PyStr ","))
           (Some "integers") int_list ",3,1,2" some_param some_ctx).
  - reflexivity.
  - reflexivity.
  - reflexivity.
Defined.

(** Every token lands in exactly one of the two lists of
    [_convert_expression_to_list]: together they are as long as the list
    of tokens. *)
Theorem list_tokens_are_partitioned
  (T : Type) (cls_name : option string) (inner : Click.ParamType T)
  (separator : option object) (name : option string) (self : ListParamType.t T)
  (expression : string) (tokens errors : list string) (converted_items : list T) :
  ListParamType.__init__ cls_name inner separator name = Return self ->
  split expression (ListParamType._separator self) = Return tokens ->
  ListParamType._convert_expression_to_list self expression
  = Return (errors, converted_items) ->
  (length errors + length converted_items = length tokens)%nat
  /\ errors = filter (validation_fails inner) tokens
  /\ converted_items = flat_map (converted_of inner) tokens.
Proof.
  intros Hinit Hsplit.
  destruct (list_init_fields _ _ _ _ _ Hinit) as (Hinner & _).
  unfold ListParamType._convert_expression_to_list.
  rewrite Hsplit. cbn [Py.bind]. intros Hloop.
  pose proof (convert_items_returns inner self tokens [] [] _ Hinner Hloop) as Hall.
  rewrite (convert_items_spec inner self tokens [] [] Hinner Hall) in Hloop.
  cbn [app] in Hloop. injection Hloop as <- <-.
  split; [now apply partition_lengths | split; reflexivity].
Qed.

Lemma list_tokens_are_partitioned_witness :
  (length ["x"; "y"] + length [1; 2]%Z = length ["x"; "1"; "y"; "2"])%nat
  /\ ["x"; "y"] = filter (validation_fails INT) ["x"; "1"; "y"; "2"]
  /\ [1; 2]%Z = flat_map (converted_of INT) ["x"; "1"; "y"; "2"].
Proof.
  apply (list_tokens_are_partitioned Z None INT (Some (PyStr ","))
           (Some "integers") int_list "x,1,y,2").
  - reflexivity.
  - reflexivity.
  - reflexivity.
Defined.

(** *** Stripping the separator characters *)

Lemma lstrip_spec chars s :
  exists leading,
    s = leading ++ lstrip chars s
    /\ only_chars chars leading = true
    /\ not_in chars (first_char (lstrip chars s)).
Proof.
  induction s as [|c s (leading & Hs & Hlead & Hfirst)].
  - now exists "".
  - cbn [lstrip]. destruct (char_in c chars) eqn:Hc.
    + exists (String c leading). cbn. rewrite Hc, Hlead. now rewrite <- Hs.
    + now exists "".
Qed.

Lemma rstrip_spec chars s :
  exists trailing,
    s = rstrip chars s ++ trailing
    /\ only_chars chars trailing = true
    /\ not_in chars (last_char (rstrip chars s)).
Proof.
  induction s as [|c s (trailing & Hs & Htrail & Hlast)].
  - now exists "".
  - cbn [rstrip]. destruct (rstrip chars s) as [|d r] eqn:Hr.
    + destruct (char_in c chars) eqn:Hc.
      * exists (String c trailing). cbn in *. rewrite Hc, Htrail. now rewrite <- Hs.
      * exists trailing. cbn in Hs. subst trailing. cbn. auto.
    + exists trailing. split; [|split]; try assumption.
      cbn [append] in *. now rewrite <- Hs.
Qed.

Lemma rstrip_keeps_first chars s :
  rstrip chars s <> "" -> first_char (rstrip chars s) = first_char s.
Proof.
  destruct (rstrip_spec chars s) as (trailing & Hs & _).
  intros Hne. rewrite Hs at 2.
  now destruct (rstrip chars s).
Qed.

Lemma lstrip_fixed chars s :
  not_in chars (first_char s) -> lstrip chars s = s.
Proof. destruct s as [|c s]; cbn; [reflexivity|]. now intros ->. Qed.

Lemma rstrip_fixed chars s :
  not_in chars (last_char s) -> rstrip chars s = s.
Proof.
  induction s as [|c s IH]; [reflexivity|].
  destruct s as [|d r].
  - cbn. now intros ->.
  - intros Hlast. change (not_in chars (last_char (String d r))) in Hlast.
    remember (String d r) as s' eqn:Hs'.
    cbn [rstrip]. rewrite (IH Hlast). now subst s'.
Qed.

Lemma strip_ends chars s :
  not_in chars (first_char (strip chars s))
  /\ not_in chars (last_char (strip chars s)).
Proof.
  unfold strip.
  destruct (rstrip_spec chars (lstrip chars s)) as (trailing & _ & _ & Hlast).
  destruct (lstrip_spec chars s) as (leading & _ & _ & Hfirst).
  split; [|exact Hlast].
  destruct (rstrip chars (lstrip chars s)) as [|c r] eqn:Hr; [exact I|].
  rewrite <- Hr, rstrip_keeps_first; [exact Hfirst | now rewrite Hr].
Qed.

(** [_strip_separator] removes a run of separator characters at each end
    and nothing else; what is left neither begins nor ends with a
    separator character, and stripping it again changes nothing. *)
Theorem strip_separator_spec
  (T : Type) (self : ListParamType.t T) (expression : string) :
  let stripped := ListParamType._strip_separator self expression in
  (exists leading trailing,
      expression = leading ++ stripped ++ trailing
      /\ only_chars (ListParamType._separator self) leading = true
      /\ only_chars (ListParamType._separator self) trailing = true)
  /\ not_in (ListParamType._separator self) (first_char stripped)
  /\ not_in (ListParamType._separator self) (last_char stripped)
  /\ ListParamType._strip_separator self stripped = stripped.
Proof.
  unfold ListParamType._strip_separator.
  set (chars := ListParamType._separator self).
  destruct (strip_ends chars expression) as [Hfirst Hlast].
  split; [|split; [exact Hfirst | split; [exact Hlast|]]].
  - unfold strip.
    destruct (lstrip_spec chars expression) as (leading & Hs & Hlead & _).
    destruct (rstrip_spec chars (lstrip chars expression))
      as (trailing & Hl & Htrail & _).
    exists leading, trailing. split; [|split]; try assumption.
    now rewrite <- Hl.
  - unfold strip at 1.
    rewrite (lstrip_fixed _ _ Hfirst). now apply rstrip_fixed.
Qed.

(** An input made of separator characters only is stripped to nothing. *)
Lemma strip_only_chars chars s :
  only_chars chars s = true -> strip chars s = "".
Proof.
  unfold strip. intros Hs.
  assert (Hl : lstrip chars s = "").
  { induction s as [|c s IH]; [reflexivity|].
    cbn in *. apply andb_prop in Hs as [-> Hs]. now apply IH. }
  now rewrite Hl.
Qed.

(** *** Splitting on the separator *)

Lemma split_from_cons sep s skip cur :
  exists token rest, split_from sep s skip cur = token :: rest.
Proof.
  revert skip cur. induction s as [|c s IH]; intros skip cur; cbn [split_from];
    [eauto|].
  destruct skip; [|apply IH].
  destruct (String.prefix sep (String c s)); [eauto | apply IH].
Qed.

Lemma join_cons sep token tokens :
  tokens <> [] -> join sep (token :: tokens) = token ++ sep ++ join sep tokens.
Proof. now destruct tokens. Qed.

Lemma drop_app s t : drop (String.length s) (s ++ t) = t.
Proof. induction s as [|c s IH]; [now destruct t | exact IH]. Qed.

Lemma join_split_from sep s skip cur :
  sep <> "" ->
  join sep (split_from sep s skip cur) = cur ++ drop skip s.
Proof.
  intros Hsep. revert skip cur.
  induction s as [|c s IH]; intros skip cur.
  - cbn. destruct skip; now rewrite append_empty_r.
  - cbn [split_from]. destruct skip as [|k]; [|now rewrite IH].
    destruct (String.prefix sep (String c s)) eqn:Hprefix.
    + destruct (split_from_cons sep s (String.length sep - 1) "")
        as (token & rest & Hcons).
      rewrite join_cons by (rewrite Hcons; discriminate).
      rewrite IH. cbn [append drop]. f_equal.
      apply prefix_iff in Hprefix as [tail Htail].
      destruct sep as [|c' sep']; [contradiction|].
      cbn in Htail. injection Htail as -> ->.
      cbn [String.length Nat.sub]. rewrite Nat.sub_0_r, drop_app.
      reflexivity.
    + rewrite IH. cbn [drop]. now rewrite append_assoc.
Qed.

(** The tokens handed to the inner adapter, joined by the separator, are
    the stripped input: splitting loses and adds no character. *)
Theorem list_tokens_join_back
  (T : Type) (self : ListParamType.t T) (raw : string) (tokens : list string) :
  split (ListParamType._strip_separator self raw) (ListParamType._separator self)
  = Return tokens ->
  join (ListParamType._separator self) tokens
  = ListParamType._strip_separator self raw.
Proof.
  unfold split.
  destruct (ListParamType._separator self) as [|c sep] eqn:Hsep; [discriminate|].
  intros [= <-]. now rewrite join_split_from.
Qed.

Lemma list_tokens_join_back_witness :
  join "," ["1"; ""; "2"; "x"] = "1,,2,x".
Proof.
  exact (list_tokens_join_back Z int_list ",,1,,2,x," ["1"; ""; "2"; "x"] eq_refl).
Defined.

Lemma append_snoc_split cur c a b :
  cur ++ String c "" = a ++ b -> b <> "" ->
  (a = cur /\ b = String c "")
  \/ (exists b0, b0 <> "" /\ cur = a ++ b0 /\ b = b0 ++ String c "").
Proof.
  revert a. induction cur as [|d cur IH]; intros a Heq Hb.
  - destruct a as [|x a]; cbn in Heq.
    + left. now split.
    + injection Heq as _ Heq. destruct a; [|discriminate].
      cbn in Heq. now subst b.
  - destruct a as [|x a]; cbn in Heq.
    + right. exists (String d cur). now repeat split.
    + injection Heq as <- Heq.
      destruct (IH a Heq Hb) as [[-> ->]|(b0 & Hb0 & -> & ->)].
      * left. now split.
      * right. exists b0. now repeat split.
Qed.

(** When no occurrence of the separator in [cur ++ s] starts inside
    [cur], there is none inside [cur]. *)
Lemma no_match_no_contains sep cur s :
  sep <> "" ->
  (forall a b, cur = a ++ b -> b <> "" -> String.prefix sep (b ++ s) = false) ->
  contains sep cur = false.
Proof.
  intros Hsep Hclean.
  destruct (contains sep cur) eqn:Hcontains; [|reflexivity].
  apply contains_iff in Hcontains as (before & rest & ->).
  assert (Hfalse : String.prefix sep ((sep ++ rest) ++ s) = false).
  { apply (Hclean before); [reflexivity|]. now destruct sep. }
  assert (Htrue : String.prefix sep ((sep ++ rest) ++ s) = true).
  { apply prefix_iff. exists (rest ++ s). now rewrite append_assoc. }
  congruence.
Qed.

Lemma split_from_without_separator sep s skip cur :
  sep <> "" ->
  (forall a b, cur = a ++ b -> b <> "" ->
               String.prefix sep (b ++ drop skip s) = false) ->
  Forall (fun token => contains sep token = false) (split_from sep s skip cur).
Proof.
  intros Hsep. revert skip cur.
  induction s as [|c s IH]; intros skip cur Hclean.
  - cbn. constructor; [|constructor].
    apply (no_match_no_contains sep cur (drop skip "")); assumption.
  - cbn [split_from]. destruct skip as [|k]; [|now apply IH].
    cbn [drop] in Hclean.
    destruct (String.prefix sep (String c s)) eqn:Hprefix.
    + constructor.
      * now apply (no_match_no_contains sep cur (String c s)).
      * apply IH. intros [|x a] b Heq Hb; cbn in Heq; [|discriminate].
        now subst b.
    + apply IH. intros a b Heq Hb. cbn [drop].
      destruct (append_snoc_split cur c a b Heq Hb)
        as [[-> ->]|(b0 & Hb0 & -> & ->)].
      * exact Hprefix.
      * rewrite append_assoc. now apply (Hclean a).
Qed.

(** No token handed to the inner adapter holds the separator. *)
Theorem list_tokens_hold_no_separator
  (T : Type) (self : ListParamType.t T) (raw : string) (tokens : list string) :
  split (ListParamType._strip_separator self raw) (ListParamType._separator self)
  = Return tokens ->
  Forall (fun token => contains (ListParamType._separator self) token = false)
         tokens.
Proof.
  unfold split.
  destruct (ListParamType._separator self) as [|c sep] eqn:Hsep; [discriminate|].
  intros [= <-]. apply split_from_without_separator; [discriminate|].
  intros [|x a] b Heq Hb; cbn in Heq; [|discriminate]. now subst b.
Qed.

Lemma list_tokens_hold_no_separator_witness :
  Forall (fun token => contains ", " token = false) ["1,2"; "3 4"; ""; "5"].
Proof.
  exact (list_tokens_hold_no_separator
           Z (ListParamType.mk ", " (Some "integers") INT
                               "These items are not integers: {errors}")
           "1,2, 3 4, , 5" ["1,2"; "3 4"; ""; "5"] eq_refl).
Defined.

(** *** Edge inputs and the contract of the wrapped adapter *)

(** An input made of separator characters only, the empty input among
    them, is converted as the single empty token. *)
Theorem list_separator_only_input
  (T : Type) (cls_name : option string) (inner : Click.ParamType T)
  (separator : option object) (name : option string) (self : ListParamType.t T)
  (raw : string) (param : option ClickParameter) (ctx : option ClickContext) :
  ListParamType.__init__ cls_name inner separator name = Return self ->
  ListParamType._separator self <> "" ->
  only_chars (ListParamType._separator self) raw = true ->
  (forall v, Click.convert inner "" None None = Return v ->
             ListParamType.convert self raw param ctx = Return [v])
  /\ (validation_fails inner "" = true ->
      brace_free (display_name (ListParamType._name self)) = true ->
      ListParamType.convert self raw param ctx
      = Raise (Click.BadParameter
                 ("These items are not " ++ display_name (ListParamType._name self)
                  ++ ": ['']") ctx param)).
Proof.
  intros Hinit Hsep Hraw.
  destruct (list_init_fields _ _ _ _ _ Hinit) as (Hinner & Hn & Hmsg & _).
  unfold ListParamType.convert, ListParamType._convert_expression_to_list,
    ListParamType._strip_separator.
  rewrite (strip_only_chars _ _ Hraw), (split_nonempty_separator _ _ Hsep).
  cbn [Py.bind split_from ListParamType.convert_items]. rewrite Hinner.
  split.
  - intros v Hv. now rewrite Hv.
  - unfold validation_fails. intros Hfail Hname.
    destruct (Click.convert inner "" None None) as [v|e]; [discriminate|].
    rewrite Hfail. cbn [app Py.bind].
    rewrite Hmsg, <- Hn.
    now rewrite (format_errors_message _ _ Hname).
Qed.

Lemma list_separator_only_input_witness :
  ListParamType.convert int_list ",,," some_param some_ctx
  = Raise (Click.BadParameter "These items are not integers: ['']"
                              some_ctx some_param).
Proof.
  apply (proj2 (list_separator_only_input Z None INT (Some (PyStr ","))
                  (Some "integers") int_list ",,," some_param some_ctx
                  eq_refl ltac:(discriminate) eq_refl)).
  - reflexivity.
  - reflexivity.
Defined.

(** Wrapping keeps the contract: with a separator that is not empty and a
    display name without brace, the list adapter over an inner adapter
    that only returns or raises validation errors does so too. *)
Theorem list_well_behaved
  (T : Type) (cls_name : option string) (inner : Click.ParamType T)
  (separator : option object) (name : option string) (self : ListParamType.t T) :
  ListParamType.__init__ cls_name inner separator name = Return self ->
  ListParamType._separator self <> "" ->
  brace_free (display_name (ListParamType._name self)) = true ->
  well_behaved inner ->
  well_behaved (ListParamType.as_param_type self).
Proof.
  intros Hinit Hsep Hname Hwb value param ctx e.
  destruct (list_init_fields _ _ _ _ _ Hinit) as (Hinner & Hn & Hmsg & _).
  cbn [ListParamType.as_param_type Click.convert].
  unfold ListParamType.convert, ListParamType._convert_expression_to_list,
    ListParamType._strip_separator.
  rewrite (split_nonempty_separator _ _ Hsep). cbn [Py.bind].
  rewrite (convert_items_spec inner self _ [] [] Hinner).
  - cbn [Py.bind app].
    destruct (filter _ _) as [|bad rest]; [discriminate|].
    rewrite Hmsg, <- Hn, (format_errors_message _ _ Hname).
    now intros [= <-].
  - apply Forall_forall. intros token _.
    unfold converts_or_fails_validation.
    destruct (Click.convert inner token None None) as [v|e'] eqn:Hconv;
      [exact I | exact (Hwb _ _ _ _ Hconv)].
Qed.

Lemma list_well_behaved_witness :
  well_behaved (ListParamType.as_param_type int_list).
Proof.
  apply (list_well_behaved Z None INT (Some (PyStr ",")) (Some "integers") int_list).
  - reflexivity.
  - discriminate.
  - reflexivity.
  - exact INT_well_behaved.
Defined.

(** ** Union adapter *)

Section UnionParamTypeMore.
Context {T : Type}.
Variables (value : string) (param : option ClickParameter)
          (ctx : option ClickContext).

(** What the loop over the candidates amounts to: it runs to its end
    when every candidate rejects the input, and otherwise stops at the
    first candidate that does not, with the outcome of that candidate. *)
Lemma try_param_types_cases (candidates : list (Click.ParamType T)) :
  match UnionParamType.try_param_types candidates value param ctx with
  | None => Forall (rejects value param ctx) candidates
  | Some outcome =>
      exists before candidate after,
        candidates = (before ++ candidate :: after)%list
        /\ Forall (rejects value param ctx) before
        /\ Click.convert candidate value param ctx = outcome
        /\ match outcome with
           | Return _ => True
           | Raise e => Click.is_BadParameter e = false
           end
  end.
Proof.
  induction candidates as [|candidate rest IH]; cbn [UnionParamType.try_param_types].
  - constructor.
  - destruct (Click.convert candidate value param ctx) as [v|e] eqn:Hconv.
    + exists [], candidate, rest. now repeat split.
    + destruct (Click.is_BadParameter e) eqn:Hkind.
      * assert (Hrej : rejects value param ctx candidate) by (now exists e).
        destruct (UnionParamType.try_param_types rest value param ctx).
        -- destruct IH as (before & c & after & -> & Hbefore & Hc & Hout).
           exists (candidate :: before), c, after. repeat split; auto.
        -- now constructor.
      * exists [], candidate, rest. now repeat split.
Qed.

Lemma try_param_types_app (first second : list (Click.ParamType T)) :
  UnionParamType.try_param_types (first ++ second)%list value param ctx
  = match UnionParamType.try_param_types first value param ctx with
    | Some outcome => Some outcome
    | None => UnionParamType.try_param_types second value param ctx
    end.
Proof.
  induction first as [|candidate rest IH]; [reflexivity|].
  cbn [app UnionParamType.try_param_types].
  destruct (Click.convert candidate value param ctx) as [v|e]; [reflexivity|].
  now destruct (Click.is_BadParameter e).
Qed.

End UnionParamTypeMore.

(** A value returned by a union adapter is the value of one of its
    candidates, before which every candidate rejected the input. *)
Theorem union_result_comes_from_first_acceptor
  (T : Type) (cls_name : option string) (param_types : list (Click.ParamType T))
  (name : option string) (raw : string)
  (param : option ClickParameter) (ctx : option ClickContext) (v : T) :
  UnionParamType.convert (UnionParamType.__init__ cls_name param_types name)
                         raw param ctx = Return v ->
  exists before candidate after,
    param_types = (before ++ candidate :: after)%list
    /\ Forall (rejects raw param ctx) before
    /\ Click.convert candidate raw param ctx = Return v.
Proof.
  unfold UnionParamType.convert, UnionParamType.__init__.
  cbn [UnionParamType._param_types UnionParamType._error_message].
  pose proof (try_param_types_cases raw param ctx param_types) as Hcases.
  destruct (UnionParamType.try_param_types param_types raw param ctx)
    as [outcome|].
  - intros ->. destruct Hcases as (before & c & after & Heq & Hbefore & Hc & _).
    now exists before, c, after.
  - destruct (format _ _); discriminate.
Qed.

Lemma union_result_comes_from_first_acceptor_witness :
  exists before candidate after,
    [RangeParamType.as_param_type range_1_10; INT]
    = (before ++ candidate :: after)%list
    /\ Forall (rejects "15" some_param some_ctx) before
    /\ Click.convert candidate "15" some_param some_ctx = Return 15%Z.
Proof.
  exact (union_result_comes_from_first_acceptor Z None
           [RangeParamType.as_param_type range_1_10; INT] (Some "number")
           "15" some_param some_ctx 15%Z eq_refl).
Defined.

(** A union used as a candidate of another union can be replaced by its
    own candidates, in place: the outer union converts every input alike
    (the display name of the inner union holding no brace). *)
Theorem union_of_union_flattens
  (T : Type) (inner_cls outer_cls : option string)
  (inner_types before after : list (Click.ParamType T))
  (inner_name outer_name : option string) (raw : string)
  (param : option ClickParameter) (ctx : option ClickContext) :
  let inner := UnionParamType.__init__ inner_cls inner_types inner_name in
  brace_free (display_name (UnionParamType._name inner)) = true ->
  UnionParamType.convert
    (UnionParamType.__init__
       outer_cls (before ++ UnionParamType.as_param_type inner :: after)%list
       outer_name) raw param ctx
  = UnionParamType.convert
      (UnionParamType.__init__
         outer_cls (before ++ inner_types ++ after)%list outer_name)
      raw param ctx.
Proof.
  intros inner Hname.
  unfold UnionParamType.convert, UnionParamType.__init__.
  cbn [UnionParamType._param_types UnionParamType._error_message].
  rewrite !try_param_types_app.
  destruct (UnionParamType.try_param_types before raw param ctx); [reflexivity|].
  cbn [UnionParamType.try_param_types UnionParamType.as_param_type Click.convert].
  unfold UnionParamType.convert, inner, UnionParamType.__init__ in *.
  cbn [UnionParamType._param_types UnionParamType._error_message
       UnionParamType._name] in *.
  pose proof (try_param_types_cases raw param ctx inner_types) as Hcases.
  destruct (UnionParamType.try_param_types inner_types raw param ctx)
    as [[v|e]|].
  - reflexivity.
  - destruct Hcases as (_ & _ & _ & _ & _ & _ & Hkind). now rewrite Hkind.
  - unfold display_name in Hname.
    now rewrite (format_value_message _ raw Hname).
Qed.

Lemma union_of_union_flattens_witness :
  UnionParamType.convert
    (UnionParamType.__init__
       None [RangeParamType.as_param_type range_1_10;
             UnionParamType.as_param_type int_or_clamped] (Some "value"))
    "15" some_param some_ctx
  = UnionParamType.convert
      (UnionParamType.__init__
         None [RangeParamType.as_param_type range_1_10; INT;
               RangeParamType.as_param_type range_1_10_clamp] (Some "value"))
      "15" some_param some_ctx.
Proof.
  exact (union_of_union_flattens Z None None
           [INT; RangeParamType.as_param_type range_1_10_clamp]
           [RangeParamType.as_param_type range_1_10] [] (Some "number")
           (Some "value") "15" some_param some_ctx eq_refl).
Defined.

(** Wrapping keeps the contract: a union of adapters that only return or
    raise validation errors does so too (its display name holding no
    brace); with no candidate at all it rejects every input, with the
    validation error "{raw} is not a valid {name}". *)
Theorem union_well_behaved
  (T : Type) (cls_name : option string) (param_types : list (Click.ParamType T))
  (name : option string) :
  Forall well_behaved param_types ->
  brace_free (display_name (or_else name cls_name)) = true ->
  well_behaved (UnionParamType.as_param_type
                  (UnionParamType.__init__ cls_name param_types name))
  /\ (param_types = [] ->
      forall value param ctx,
        UnionParamType.convert (UnionParamType.__init__ cls_name param_types name)
                               value param ctx
        = Raise (Click.BadParameter
                   (value ++ " is not a valid "
                    ++ display_name (or_else name cls_name)) None None)).
Proof.
  intros Hall Hname. split.
  - intros value param ctx e.
    cbn [UnionParamType.as_param_type Click.convert].
    unfold UnionParamType.convert, UnionParamType.__init__.
    cbn [UnionParamType._param_types UnionParamType._error_message].
    pose proof (try_param_types_cases value param ctx param_types) as Hcases.
    destruct (UnionParamType.try_param_types param_types value param ctx)
      as [outcome|].
    + intros ->. destruct Hcases as (before & c & after & -> & _ & Hc & _).
      apply Forall_app in Hall as [_ Hall].
      inversion Hall as [|? ? Hwb _]; subst.
      exact (Hwb _ _ _ _ Hc).
    + unfold display_name in Hname.
      rewrite (format_value_message _ value Hname). now intros [= <-].
  - intros -> value param ctx.
    unfold UnionParamType.convert, UnionParamType.__init__.
    cbn [UnionParamType._param_types UnionParamType._error_message
         UnionParamType.try_param_types].
    unfold display_name in *.
    now rewrite (format_value_message _ value Hname).
Qed.

Lemma union_well_behaved_witness :
  well_behaved (UnionParamType.as_param_type ranged_or_int)
  /\ UnionParamType.convert (UnionParamType.__init__ (T := Z) None [] (Some "number"))
                            "7" some_param some_ctx
     = Raise (Click.BadParameter "7 is not a valid number" None None).
Proof.
  split.
  - apply (proj1 (union_well_behaved Z None
                    [RangeParamType.as_param_type range_1_10; INT] (Some "number")
                    ltac:(repeat constructor;
                          [intros value param ctx e Hraise;
                           destruct (range_raises INT (Some 1%Z) (Some 10%Z) false
                                       _ _ _ _ Hraise)
                             as [Hfrom_inner|[message ->]];
                           [exact (INT_well_behaved _ _ _ _ Hfrom_inner)
                           | reflexivity]
                          | exact INT_well_behaved])
                    eq_refl)).
  - exact (proj2 (union_well_behaved Z None [] (Some "number")
                    (Forall_nil _) eq_refl) eq_refl "7" some_param some_ctx).
Defined.

(** ** Enumeration adapter *)

Lemma upper_char_idempotent c : upper_char (upper_char c) = upper_char c.
Proof. destruct c as [[] [] [] [] [] [] [] []]; reflexivity. Qed.

Lemma upper_idempotent s : upper (upper s) = upper s.
Proof.
  induction s as [|c s IH]; [reflexivity|].
  cbn. now rewrite upper_char_idempotent, IH.
Qed.

Section EnumParamTypeMore.
Context {M : Type}.

Lemma lookup_cases (members : list (string * M)) name :
  match EnumParamType.lookup members name with
  | Return member => In (name, member) members
  | Raise e => e = KeyError (repr_str name) /\ ~ In name (map fst members)
  end.
Proof.
  induction members as [|[k m] rest IH]; cbn; [auto|].
  destruct (String.eqb_spec k name) as [->|Hk].
  - now left.
  - destruct (EnumParamType.lookup rest name).
    + now right.
    + destruct IH as [-> Hmiss]. split; [reflexivity|]. now intros [|].
Qed.

End EnumParamTypeMore.

(** With normalisation on, the outcome depends on the input only up to
    the case of its letters, and on neither the parameter nor the
    context: inputs with the same upper-case form are converted alike. *)
Theorem enum_case_insensitive
  (M : Type) (enum : EnumParamType.Enum M) (flag : option bool) (a b : string)
  (param param' : option ClickParameter) (ctx ctx' : option ClickContext) :
  let self := EnumParamType.__init__ enum flag in
  flag <> Some false ->
  (upper a = upper b ->
   EnumParamType.convert self a param ctx = EnumParamType.convert self b param' ctx')
  /\ EnumParamType.convert self (upper a) param ctx
     = EnumParamType.convert self a param ctx.
Proof.
  intros self Hflag.
  assert (Hupper : EnumParamType.transform_upper self = true).
  { unfold self, EnumParamType.__init__. cbn.
    destruct flag as [[|]|]; [reflexivity|contradiction|reflexivity]. }
  unfold EnumParamType.convert. rewrite Hupper. split.
  - now intros ->.
  - now rewrite upper_idempotent.
Qed.

Lemma enum_case_insensitive_witness :
  EnumParamType.convert color_adapter "Red" some_param some_ctx
  = EnumParamType.convert color_adapter "rED" None None.
Proof.
  exact (proj1 (enum_case_insensitive Color ColorEnum None "Red" "rED"
                  some_param None some_ctx None ltac:(discriminate)) eq_refl).
Defined.

(** With normalisation off the input is looked up as it is: the member
    of exactly that name is returned, and a miss is reported with the
    input unchanged. *)
Theorem enum_exact_lookup_without_normalisation
  (M : Type) (enum : EnumParamType.Enum M) (raw : string)
  (param : option ClickParameter) (ctx : option ClickContext) :
  let self := EnumParamType.__init__ enum (Some false) in
  NoDup (map fst (EnumParamType._member_map_ enum)) ->
  (forall member,
      In (raw, member) (EnumParamType._member_map_ enum) ->
      EnumParamType.convert self raw param ctx = Return member)
  /\ (~ In raw (map fst (EnumParamType._member_map_ enum)) ->
      EnumParamType.convert self raw param ctx
      = Raise (Click.BadParameter
                 ("Unknown " ++ EnumParamType.__name__ enum ++ " value: " ++ raw)
                 None None)).
Proof.
  intros self Hnodup.
  unfold EnumParamType.convert, EnumParamType.getitem, self, EnumParamType.__init__.
  cbn [EnumParamType.enum_type EnumParamType.transform_upper].
  split.
  - intros member Hin. now rewrite (lookup_hit _ _ _ Hnodup Hin).
  - intros Hmiss. rewrite (lookup_miss _ _ Hmiss).
    change (isinstance (KeyError (repr_str raw)) "KeyError") with true.
    cbv iota. now rewrite format_unknown_message.
Qed.

Lemma enum_exact_lookup_without_normalisation_witness :
  EnumParamType.convert (EnumParamType.__init__ ColorEnum (Some false))
                        "RED" some_param some_ctx = Return RED
  /\ EnumParamType.convert (EnumParamType.__init__ ColorEnum (Some false))
                           "Red" some_param some_ctx
     = Raise (Click.BadParameter "Unknown Color value: Red" None None).
Proof.
  assert (Hnames : NoDup (map fst (EnumParamType._member_map_ ColorEnum))).
  { cbn. repeat constructor; cbn; intuition discriminate. }
  split.
  - apply (proj1 (enum_exact_lookup_without_normalisation Color ColorEnum "RED"
                    some_param some_ctx Hnames)).
    cbn. now left.
  - apply (proj2 (enum_exact_lookup_without_normalisation Color ColorEnum "Red"
                    some_param some_ctx Hnames)).
    cbn. intuition discriminate.
Defined.

(** Whatever the enumeration and the input, the enumeration adapter
    returns a member filed in the enumeration under the looked-up name,
    or raises the validation error that names the enumeration and the
    looked-up name when no member has it; it raises nothing else. *)
Theorem enum_convert_outcomes
  (M : Type) (self : EnumParamType.t M) (raw : string)
  (param : option ClickParameter) (ctx : option ClickContext) :
  let key := if EnumParamType.transform_upper self then upper raw else raw in
  let members := EnumParamType._member_map_ (EnumParamType.enum_type self) in
  match EnumParamType.convert self raw param ctx with
  | Return member => In (key, member) members
  | Raise e =>
      ~ In key (map fst members)
      /\ e = Click.BadParameter
               ("Unknown " ++ EnumParamType.__name__ (EnumParamType.enum_type self)
                ++ " value: " ++ key) None None
  end.
Proof.
  intros key members.
  unfold EnumParamType.convert, EnumParamType.getitem. fold key. fold members.
  pose proof (lookup_cases members key) as Hcases.
  destruct (EnumParamType.lookup members key) as [member|e]; [exact Hcases|].
  destruct Hcases as [-> Hmiss].
  change (isinstance (KeyError (repr_str key)) "KeyError") with true.
  cbv iota. rewrite format_unknown_message. now split.
Qed.

Lemma format_braced choices :
  format "{{{choices_str}}}" [("choices_str", choices)]
  = Return ("{" ++ choices ++ "}").
Proof.
  unfold format. cbn.
  change (get_field [("choices_str", choices)] "choices_str") with (Return choices).
  reflexivity.
Qed.

Lemma format_bracketed choices :
  format "[{choices_str}]" [("choices_str", choices)]
  = Return ("[" ++ choices ++ "]").
Proof.
  unfold format. cbn.
  change (get_field [("choices_str", choices)] "choices_str") with (Return choices).
  reflexivity.
Qed.

Lemma iter_without_alias {M : Type} (name_of : M -> string)
      (enum : EnumParamType.Enum M) :
  Forall (fun entry => name_of (snd entry) = fst entry)
         (EnumParamType._member_map_ enum) ->
  map name_of (EnumParamType.iter name_of enum)
  = map fst (EnumParamType._member_map_ enum).
Proof.
  unfold EnumParamType.iter.
  induction 1 as [|[k m] rest Hentry _ IH]; [reflexivity|].
  cbn in *. rewrite Hentry, String.eqb_refl. cbn. now rewrite Hentry, IH.
Qed.

(** [get_metavar] never fails: it lists the names of the members that
    iterating over the enumeration yields, joined by a bar, between
    braces for a required argument and between square brackets for
    anything else; when the enumeration has no alias these are all the
    names of its member map, in definition order. *)
Theorem enum_get_metavar
  (M : Type) (name_of : M -> string) (self : EnumParamType.t M)
  (required : bool) (param_type_name : string) :
  let enum := EnumParamType.enum_type self in
  (exists choices,
      choices = join "|" (map name_of (EnumParamType.iter name_of enum))
      /\ EnumParamType.get_metavar name_of self required param_type_name
         = Return (if required && String.eqb param_type_name "argument"
                   then "{" ++ choices ++ "}"
                   else "[" ++ choices ++ "]"))
  /\ (Forall (fun entry => name_of (snd entry) = fst entry)
             (EnumParamType._member_map_ enum) ->
      EnumParamType.get_metavar name_of self required param_type_name
      = Return (if required && String.eqb param_type_name "argument"
                then "{" ++ join "|" (map fst (EnumParamType._member_map_ enum)) ++ "}"
                else "[" ++ join "|" (map fst (EnumParamType._member_map_ enum)) ++ "]")).
Proof.
  intros enum.
  assert (Hmeta : EnumParamType.get_metavar name_of self required param_type_name
                  = Return (if required && String.eqb param_type_name "argument"
                            then "{" ++ join "|" (map name_of (EnumParamType.iter name_of enum)) ++ "}"
                            else "[" ++ join "|" (map name_of (EnumParamType.iter name_of enum)) ++ "]")).
  { unfold EnumParamType.get_metavar. fold enum.
    destruct (required && String.eqb param_type_name "argument").
    - apply format_braced.
    - apply format_bracketed. }
  split.
  - eexists. split; [reflexivity | exact Hmeta].
  - intros Hcanonical. rewrite Hmeta.
    now rewrite (iter_without_alias name_of enum Hcanonical).
Qed.

Lemma enum_get_metavar_witness :
  EnumParamType.get_metavar color_name color_adapter true "argument"
  = Return "{RED|GREEN}"
  /\ EnumParamType.get_metavar color_name color_adapter true "option"
     = Return "[RED|GREEN]"
  /\ EnumParamType.get_metavar color_name color_adapter false "argument"
     = Return "[RED|GREEN]".
Proof.
  assert (Hcanonical :
            Forall (fun entry => color_name (snd entry) = fst entry)
                   (EnumParamType._member_map_ (EnumParamType.enum_type color_adapter))).
  { repeat constructor. }
  split; [|split].
  - exact (proj2 (enum_get_metavar Color color_name color_adapter true "argument")
             Hcanonical).
  - exact (proj2 (enum_get_metavar Color color_name color_adapter true "option")
             Hcanonical).
  - exact (proj2 (enum_get_metavar Color color_name color_adapter false "argument")
             Hcanonical).
Defined.

(** An alias is a second name of a member: it can be looked up, and the
    metavar does not list it. *)
Example alias_is_looked_up_not_listed :
  let enum := EnumParamType.mkEnum
                "Color" [("RED", RED); ("GREEN", GREEN); ("CRIMSON", RED)] in
  EnumParamType.convert (EnumParamType.__init__ enum None) "crimson" None None
  = Return RED
  /\ EnumParamType.get_metavar color_name (EnumParamType.__init__ enum None)
                               false "option"
     = Return "[RED|GREEN]".
Proof. split; reflexivity. Qed.


(** ** The representation of a range adapter *)










Example int_range_repr :
  RangeParamType.__repr__ (Some "int range") str_of_int range_1_10
  = Return "IntRange(1, 10)".
Proof. reflexivity. Qed.

